(** * StudyVerseAI: the flashcard spaced-repetition scheduler

    A shallow embedding of
    - the Flashcard model (backend/models/Flashcard.js): the [successRate]
      and [isDue] virtuals and the [updateReviewData] method;
    - the review route [POST /card/:id/review] (backend/routes/flashcard.js);
    - the flashcard part of the analytics route (backend/routes/dashboard.js);
    - further on, the other scheduler routes of the flashcard router (read,
      due list, soft delete), the quiz statistics of the analytics, the
      [PATCH /mark-topic] route of the dashboard and the two study-plan
      methods it rests on (pre-save hook, [getUpcomingTasks]).

    Ids are taken to be well-formed ObjectIds: a query with an id that
    cannot be cast throws in the code and is not modelled.

    Numbers.  There are two models of [updateReviewData].

    The first takes a JavaScript Number by its mathematical value: the
    counters and the interval, which the code only ever sets to integers,
    are [Z]; the ease factor, the response times and every intermediate
    quotient are exact rationals [Q]; a Date is its time value in
    milliseconds, a [Z], and [save] always succeeds.  It carries the
    properties that do not depend on the last bit of a product or on the
    range of Date: bounds, frames, the branches taken, the answers of the
    routes.

    The second, module [Double], has the ease factor, the quality and the
    product [interval * easeFactor] as binary64 doubles, [Math.round] of a
    double, the range of Date and a [save] that rejects what cannot be
    cast.  It carries the interval rule and the next review date, which
    depend on both.  Module [Binary64] replays the ease-factor arithmetic of
    the scenarios on doubles. *)

From Stdlib Require Import ZArith QArith Qround Qabs Lqa Lia.
From Stdlib Require Floats.
From stdpp Require Import gmap strings sorting.

Local Open Scope Z_scope.

(** ** JavaScript primitives used by the code *)

Module JS.

(** [Math.round]: the nearest integer, a tie going up. *)
Definition Math_round (x : Q) : Z := Qfloor (x + 0.5)%Q.

(** [x < y], [x > y] and [x >= y] on numbers. *)
Definition ltb (x y : Q) : bool := (Qnum x * QDen y <? Qnum y * QDen x)%Z.
Definition gtb (x y : Q) : bool := ltb y x.
Definition geb (x y : Q) : bool := (Qnum y * QDen x <=? Qnum x * QDen y)%Z.

(** Truthiness of a number: [0] is falsy. *)
Definition truthy (x : Q) : bool := negb (Qeq_bool x 0).

End JS.

(** ** The Flashcard document (fields of the schema that the scheduler and
       the routes read or write) *)

Record Stats := mkStats {
  timesReviewed : Z;
  correctAnswers : Z;
  incorrectAnswers : Z;
  lastReviewed : option Z;
  averageResponseTime : Q            (* in seconds *)
}.

Record ReviewData := mkReviewData {
  interval : Z;                      (* in days *)
  easeFactor : Q;
  nextReview : Z;
  reviewCount : Z
}.

Record Flashcard := mkFlashcard {
  _id : string;
  user : string;
  subject : string;
  stats : Stats;
  reviewData : ReviewData;
  isActive : bool
}.

(** Assignments to one field of the document. *)
Definition set_stats (s : Stats) (c : Flashcard) : Flashcard :=
  mkFlashcard (_id c) (user c) (subject c) s (reviewData c) (isActive c).
Definition set_reviewData (r : ReviewData) (c : Flashcard) : Flashcard :=
  mkFlashcard (_id c) (user c) (subject c) (stats c) r (isActive c).

Definition set_timesReviewed (v : Z) (c : Flashcard) : Flashcard :=
  let s := stats c in
  set_stats (mkStats v (correctAnswers s) (incorrectAnswers s)
               (lastReviewed s) (averageResponseTime s)) c.
Definition set_correctAnswers (v : Z) (c : Flashcard) : Flashcard :=
  let s := stats c in
  set_stats (mkStats (timesReviewed s) v (incorrectAnswers s)
               (lastReviewed s) (averageResponseTime s)) c.
Definition set_incorrectAnswers (v : Z) (c : Flashcard) : Flashcard :=
  let s := stats c in
  set_stats (mkStats (timesReviewed s) (correctAnswers s) v
               (lastReviewed s) (averageResponseTime s)) c.
Definition set_lastReviewed (v : Z) (c : Flashcard) : Flashcard :=
  let s := stats c in
  set_stats (mkStats (timesReviewed s) (correctAnswers s) (incorrectAnswers s)
               (Some v) (averageResponseTime s)) c.
Definition set_averageResponseTime (v : Q) (c : Flashcard) : Flashcard :=
  let s := stats c in
  set_stats (mkStats (timesReviewed s) (correctAnswers s) (incorrectAnswers s)
               (lastReviewed s) v) c.

Definition set_interval (v : Z) (c : Flashcard) : Flashcard :=
  let r := reviewData c in
  set_reviewData (mkReviewData v (easeFactor r) (nextReview r) (reviewCount r)) c.
Definition set_easeFactor (v : Q) (c : Flashcard) : Flashcard :=
  let r := reviewData c in
  set_reviewData (mkReviewData (interval r) v (nextReview r) (reviewCount r)) c.
Definition set_nextReview (v : Z) (c : Flashcard) : Flashcard :=
  let r := reviewData c in
  set_reviewData (mkReviewData (interval r) (easeFactor r) v (reviewCount r)) c.
Definition set_reviewCount (v : Z) (c : Flashcard) : Flashcard :=
  let r := reviewData c in
  set_reviewData (mkReviewData (interval r) (easeFactor r) (nextReview r) v) c.

(** Schema defaults: what [new Flashcard({...})] holds at time [now]. *)
Definition newFlashcard (id usr subj : string) (now : Z) : Flashcard :=
  mkFlashcard id usr subj
    (mkStats 0 0 0 None 0%Q)
    (mkReviewData 1 2.5%Q now 0)
    true.

(** ** Virtuals and methods of the model *)

(** The [successRate] virtual. *)
Definition successRate (this : Flashcard) : Z :=
  if timesReviewed (stats this) =? 0 then 0
  else JS.Math_round
         (inject_Z (correctAnswers (stats this))
            / inject_Z (timesReviewed (stats this)) * 100)%Q.

(** The [isDue] virtual; [today] is the value of [new Date()]. *)
Definition isDue (this : Flashcard) (today : Z) : bool :=
  nextReview (reviewData this) <=? today.

(** The body of [updateReviewData], up to the final [this.save()], which
    [review] below performs on the store.  [clock 0] is what [new Date()]
    returns on the second line of the body and [clock 1] what [Date.now()]
    returns on its last assignment. *)
Definition updateReviewData (this : Flashcard) (quality : Q) (clock : nat -> Z)
  : Flashcard :=
  let this := set_timesReviewed (timesReviewed (stats this) + 1) this in
  let this := set_lastReviewed (clock 0%nat) this in
  let this := set_reviewCount (reviewCount (reviewData this) + 1) this in
  let this :=
    if JS.geb quality 3 then
      let this := set_correctAnswers (correctAnswers (stats this) + 1) this in
      let this :=
        if reviewCount (reviewData this) =? 1 then set_interval 1 this
        else if reviewCount (reviewData this) =? 2 then set_interval 6 this
        else set_interval
               (JS.Math_round (inject_Z (interval (reviewData this))
                               * easeFactor (reviewData this))%Q) this in
      set_easeFactor
        (easeFactor (reviewData this)
         + (0.1 - (5 - quality) * (0.08 + (5 - quality) * 0.02)))%Q this
    else
      let this := set_incorrectAnswers (incorrectAnswers (stats this) + 1) this in
      let this := set_reviewCount 0 this in
      set_interval 1 this in
  let this :=
    if JS.ltb (easeFactor (reviewData this)) 1.3 then set_easeFactor 1.3%Q this
    else this in
  set_nextReview
    (clock 1%nat + interval (reviewData this) * 24 * 60 * 60 * 1000) this.

(** ** The flashcard collection and the request handlers *)

(** What a handler sends back.  The 500 answer of the [catch] block is not
    modelled: nothing in the model throws. *)
Record ReviewedJson := mkReviewedJson {
  res_id : string;
  res_stats : Stats;
  res_reviewData : ReviewData;
  res_successRate : Z;
  res_isDue : bool;
  res_nextReview : Z
}.

Inductive Response :=
| Status400 (message : string)
| Status404 (message : string)
| Status200 (flashcard : ReviewedJson).

(** A handler runs on the collection, keyed by [_id]; it either answers
    early ([return res.status(...).json(...)]) or goes on with a value. *)
Definition Handler (A : Type) : Type :=
  gmap string Flashcard -> (Response + A) * gmap string Flashcard.

Definition ret {A : Type} (a : A) : Handler A := fun db => (inr a, db).

Definition bind {A B : Type} (m : Handler A) (k : A -> Handler B) : Handler B :=
  fun db =>
    match m db with
    | (inl r, db') => (inl r, db')
    | (inr a, db') => k a db'
    end.

Definition respond {A : Type} (r : Response) : Handler A := fun db => (inl r, db).

Notation "'await' x <- m ;; k" := (bind m (fun x => k))
  (at level 10, x name, m at level 99, k at level 200).

(** [Flashcard.findOne({ _id, user, isActive: true })]: the document the
    query selects, and the query as a handler step. *)
Definition selectOne (db : gmap string Flashcard) (id usr : string)
  : option Flashcard :=
  match db !! id with
  | Some c => if bool_decide (user c = usr) && isActive c then Some c else None
  | None => None
  end.

Definition findOne (id usr : string) : Handler (option Flashcard) :=
  fun db => (inr (selectOne db id usr), db).

(** [doc.save()], for a document every field of which can be cast; a save
    that rejects, which the route answers with status 500 leaving the
    collection as it was, is in [Double.updateReviewData]. *)
Definition save (c : Flashcard) : Handler Flashcard :=
  fun db => (inr c, <[_id c := c]> db).

(** The answer of a handler and the collection it leaves. *)
Definition run (h : Handler Response) (db : gmap string Flashcard)
  : Response * gmap string Flashcard :=
  match h db with
  | (inl r, db') => (r, db')
  | (inr r, db') => (r, db')
  end.

(** What [POST /card/:id/review] reads of its request: [req.params.id],
    [req.user.id] (set by the authentication middleware) and the two fields
    of [req.body], each [undefined] ([None]) or a number.  Bodies that carry
    strings, booleans or [null] in these fields are outside the model. *)
Record ReviewRequest := mkReviewRequest {
  params_id : string;
  user_id : string;
  body_quality : option Q;
  body_responseTime : option Q
}.

(** "Update response time if provided": the block of the route guarded by
    [if (responseTime)]; [undefined] is falsy, and so is the number 0. *)
Definition updateResponseTime (flashcard : Flashcard) (responseTime : option Q)
  : Flashcard :=
  match responseTime with
  | None => flashcard
  | Some responseTime =>
    if JS.truthy responseTime then
      let newTotalTime :=
        (averageResponseTime (stats flashcard)
           * inject_Z (timesReviewed (stats flashcard))
         + responseTime)%Q in
      set_averageResponseTime
        (newTotalTime / inject_Z (timesReviewed (stats flashcard) + 1))%Q
        flashcard
    else flashcard
  end.

(** The [flashcard] object of the 200 answer; [today] is the [new Date()]
    of its [isDue]. *)
Definition reviewedJson (flashcard : Flashcard) (today : Z) : ReviewedJson :=
  mkReviewedJson (_id flashcard) (stats flashcard) (reviewData flashcard)
    (successRate flashcard) (isDue flashcard today)
    (nextReview (reviewData flashcard)).

(** The handler: its answers of status 400, 404 and 200.  [clock 2] is the
    clock reading of the answer's [isDue]. *)
Definition review (req : ReviewRequest) (clock : nat -> Z) : Handler Response :=
  let quality := body_quality req in
  let responseTime := body_responseTime req in
  match quality with
  | None => respond (Status400 "Quality must be between 0 and 5")
  | Some quality =>
    if JS.ltb quality 0 || JS.gtb quality 5 then
      respond (Status400 "Quality must be between 0 and 5")
    else
      await flashcard <- findOne (params_id req) (user_id req) ;;
      match flashcard with
      | None => respond (Status404 "Flashcard not found")
      | Some flashcard =>
        let flashcard := updateResponseTime flashcard responseTime in
        await flashcard <- save (updateReviewData flashcard quality clock) ;;
        ret (Status200 (reviewedJson flashcard (clock 2%nat)))
      end
  end.

(** ** The flashcard statistics of [GET /analytics] *)

Record FlashcardStats := mkFlashcardStats {
  total : Z;
  reviewed : Z;
  averageSuccessRate : Z
}.

(** [rates.reduce((sum, rate) => sum + rate, 0)]. *)
Definition reduce_sum (rates : list Z) : Z := fold_left Z.add rates 0.

Definition flashcardStats (flashcards : list Flashcard) : FlashcardStats :=
  let total := Z.of_nat (length flashcards) in
  let reviewed :=
    Z.of_nat (length (filter (fun card => 0 < timesReviewed (stats card)) flashcards)) in
  let averageSuccessRate :=
    if 0 <? Z.of_nat (length flashcards) then
      let successRates := map successRate flashcards in
      JS.Math_round (inject_Z (reduce_sum successRates)
                     / inject_Z (Z.of_nat (length successRates)))%Q
    else 0 in
  mkFlashcardStats total reviewed averageSuccessRate.

(** ** Predicates of the specification *)

(** The invariants the data model asks of a card. *)
Definition card_invariant (c : Flashcard) : Prop :=
  correctAnswers (stats c) + incorrectAnswers (stats c) = timesReviewed (stats c)
  /\ (1.3 <= easeFactor (reviewData c))%Q
  /\ 1 <= interval (reviewData c).

(** The answer to a quality that fails validation. *)
Definition InvalidQuality : Response := Status400 "Quality must be between 0 and 5".

(** The card a review of stored card [c] writes back. *)
Definition reviewedCard (c : Flashcard) (req : ReviewRequest) (quality : Q)
  (clock : nat -> Z) : Flashcard :=
  updateReviewData (updateResponseTime c (body_responseTime req)) quality clock.

(** The cards a card can become: it is only ever rewritten by reviews that
    went through, each with its own quality, response time and clock. *)
Inductive reviewed_from (c0 : Flashcard) : Flashcard -> Prop :=
| reviewed_none : reviewed_from c0 c0
| reviewed_once (c : Flashcard) (req : ReviewRequest) (quality : Q)
    (clock : nat -> Z) :
    reviewed_from c0 c ->
    reviewed_from c0 (reviewedCard c req quality clock).

(** The same request without its [responseTime] field. *)
Definition withoutResponseTime (req : ReviewRequest) : ReviewRequest :=
  mkReviewRequest (params_id req) (user_id req) (body_quality req) None.

(** The cards the analytics count as reviewed. *)
Definition reviewedCards (cards : list Flashcard) : list Flashcard :=
  filter (fun card => 0 < timesReviewed (stats card)) cards.

(** The aggregate as the specification words it: the mean of [successRate]
    over the reviewed cards only, rounded, and 0 when there is none. *)
Definition averageSuccessRate_spec (cards : list Flashcard) : Z :=
  match reviewedCards cards with
  | [] => 0
  | _ =>
    JS.Math_round
      (inject_Z (reduce_sum (map successRate (reviewedCards cards)))
       / inject_Z (Z.of_nat (length (reviewedCards cards))))%Q
  end.

(** The running mean the specification asks of a review that carries a
    response time. *)
Definition runningMean (oldAvg : Q) (oldTimesReviewed : Z) (responseTime : Q) : Q :=
  ((oldAvg * inject_Z oldTimesReviewed + responseTime)
   / inject_Z (oldTimesReviewed + 1))%Q.

(** The term a successful review adds to the ease factor, and the clamp. *)
Definition easeDelta (quality : Q) : Q :=
  (0.1 - (5 - quality) * (0.08 + (5 - quality) * 0.02))%Q.

Definition floorEase (easeFactor : Q) : Q :=
  if JS.ltb easeFactor 1.3 then 1.3%Q else easeFactor.

(** Scenarios A and B of the specification: a new card reviewed with
    quality 5, then with quality 4. *)
Definition scenarioA (id usr subj : string) (now : Z) (clockA : nat -> Z)
  : Flashcard :=
  updateReviewData (newFlashcard id usr subj now) 5 clockA.

Definition scenarioB (id usr subj : string) (now : Z) (clockA clockB : nat -> Z)
  : Flashcard :=
  updateReviewData (scenarioA id usr subj now clockA) 4 clockB.

(** The card and the request at which the route and the running mean of the
    specification part: one earlier review answered in 10 seconds, then a
    review answered in 0 seconds. *)
Definition slowCard : Flashcard :=
  mkFlashcard "c1" "u1" "s1" (mkStats 1 1 0 (Some 0) 10%Q)
    (mkReviewData 1 2.6%Q 86400000 1) true.

Definition instantReview : ReviewRequest :=
  mkReviewRequest "c1" "u1" (Some 4%Q) (Some 0%Q).

(** Cards at three points of a streak: never reviewed, answered right once,
    answered right twice; and a card whose ease factor lies under the floor. *)
Definition unseenCard : Flashcard := newFlashcard "c2" "u1" "s1" 0.

Definition knownCard : Flashcard :=
  mkFlashcard "c1" "u1" "s1" (mkStats 1 1 0 (Some 0) 0%Q)
    (mkReviewData 1 2.6%Q 86400000 1) true.

Definition streakCard : Flashcard :=
  mkFlashcard "c3" "u1" "s1" (mkStats 2 2 0 (Some 0) 0%Q)
    (mkReviewData 6 2.6%Q 518400000 2) true.

Definition lowEaseCard : Flashcard :=
  mkFlashcard "c4" "u1" "s1" (mkStats 2 2 0 (Some 0) 0%Q)
    (mkReviewData 6 1.1%Q 518400000 2) true.

(** A clock that stands still. *)
Definition noon : nat -> Z := fun _ => 1000.

(** ** Further predicates *)

(** What the counters of a card look like along its life: none is negative,
    the streak is no longer than the count of right answers, the counters
    add up, and a streak of two or more has taken the interval to 6 days or
    more. *)
Definition streak_invariant (c : Flashcard) : Prop :=
  0 <= reviewCount (reviewData c)
  /\ reviewCount (reviewData c) <= correctAnswers (stats c)
  /\ 0 <= incorrectAnswers (stats c)
  /\ correctAnswers (stats c) + incorrectAnswers (stats c) = timesReviewed (stats c)
  /\ (2 <= reviewCount (reviewData c) -> 6 <= interval (reviewData c)).

(** The collection is keyed by [_id]. *)
Definition keyed_by_id (db : gmap string Flashcard) : Prop :=
  forall k c, db !! k = Some c -> _id c = k.

(** ** The other routes of the flashcard router *)

(** The documents of the collection, as a query scans them. *)
Definition documents (db : gmap string Flashcard) : list Flashcard :=
  (map_to_list db).*2.

(** [flashcard.isActive = false]. *)
Definition set_isActive (v : bool) (c : Flashcard) : Flashcard :=
  mkFlashcard (_id c) (user c) (subject c) (stats c) (reviewData c) v.

(** [DELETE /card/:id], the soft delete; its 200 answer is a message. *)
Definition deleteFlashcard (id usr : string) : Handler string :=
  await flashcard <- findOne id usr ;;
  match flashcard with
  | None => respond (Status404 "Flashcard not found")
  | Some flashcard =>
    let flashcard := set_isActive false flashcard in
    await saved <- save flashcard ;;
    ret "Flashcard deleted successfully"
  end.

(** [GET /card/:id]: the scheduler fields of its answer; [today] is the
    [new Date()] of [isDue]. *)
Record CardJson := mkCardJson {
  card_id : string;
  card_stats : Stats;
  card_reviewData : ReviewData;
  card_successRate : Z;
  card_isDue : bool
}.

Definition getFlashcard (id usr : string) (today : Z) : Handler CardJson :=
  await flashcard <- findOne id usr ;;
  match flashcard with
  | None => respond (Status404 "Flashcard not found")
  | Some flashcard =>
    ret (mkCardJson (_id flashcard) (stats flashcard) (reviewData flashcard)
           (successRate flashcard) (isDue flashcard today))
  end.

(** Ascending sort by an integer key, by stable insertion: what
    [Array.prototype.sort] does with the comparator [a.key - b.key].  It
    also stands for the [.sort({ key: 1 })] of a query, which leaves the
    order of documents with equal keys open. *)
Fixpoint insert_by {A : Type} (key : A -> Z) (x : A) (l : list A) : list A :=
  match l with
  | [] => [x]
  | y :: l' => if key x <=? key y then x :: y :: l' else y :: insert_by key x l'
  end.

Definition sort_by {A : Type} (key : A -> Z) (l : list A) : list A :=
  foldr (insert_by key) [] l.

(** The query of [GET /due/:subjectId?]; [subjectId] is [None] when the
    handler runs without the parameter, [now] is [new Date()].  The router
    declares [GET /:subjectId] first, so that a request for [/due] alone is
    taken there and this handler serves the requests with a subject. *)
Definition dueQuery (usr : string) (subjectId : option string) (now : Z)
  (c : Flashcard) : bool :=
  bool_decide (user c = usr) && isActive c
  && (nextReview (reviewData c) <=? now)
  && match subjectId with
     | Some subjectId => bool_decide (subject c = subjectId)
     | None => true
     end.

(** The cards the route answers with: sorted by [nextReview], 20 at most. *)
Definition dueFlashcards (db : gmap string Flashcard) (usr : string)
  (subjectId : option string) (now : Z) : list Flashcard :=
  take 20 (sort_by (fun c => nextReview (reviewData c))
             (List.filter (dueQuery usr subjectId now) (documents db))).

(** ** More JavaScript primitives *)

(** [Math.floor]. *)
Definition Math_floor (x : Q) : Z := Qfloor x.

(** The result of [Math.max(...scores)]: [-Infinity] for no argument. *)
Inductive MaxResult :=
| NegInfinity
| Finite (z : Z).

Definition max2 (m : MaxResult) (z : Z) : MaxResult :=
  match m with
  | NegInfinity => Finite z
  | Finite m => Finite (Z.max m z)
  end.

Definition Math_max (scores : list Z) : MaxResult := fold_left max2 scores NegInfinity.

(** A string in a condition: [undefined] and the empty string are falsy. *)
Definition truthy_string (v : option string) : bool :=
  match v with
  | None => false
  | Some s => negb (bool_decide (s = ""))
  end.

(** ** The quiz statistics of [GET /analytics] *)

Module Quiz.

(** Of a quiz the analytics read its attempts, and of an attempt whether it
    was completed and its [percentage], an integer: the quiz router sets it
    with [Math.round]. *)
Record Attempt := mkAttempt {
  completed : bool;
  percentage : Z
}.

Record Doc := mkDoc {
  attempts : list Attempt
}.

End Quiz.

Record QuizStats := mkQuizStats {
  totalQuizzes : Z;
  totalAttempts : Z;
  averageScore : Z;
  bestScore : MaxResult
}.

(** [quizzes.flatMap(quiz => quiz.attempts.filter(...).map(...))]. *)
Definition allScores (quizzes : list Quiz.Doc) : list Z :=
  flat_map (fun quiz =>
              map Quiz.percentage (List.filter Quiz.completed (Quiz.attempts quiz)))
    quizzes.

Definition quizStats (quizzes : list Quiz.Doc) : QuizStats :=
  let totalQuizzes := Z.of_nat (length quizzes) in
  let totalAttempts :=
    fold_left (fun sum quiz => sum + Z.of_nat (length (Quiz.attempts quiz)))
      quizzes 0 in
  let quizStats := mkQuizStats totalQuizzes totalAttempts 0 (Finite 0) in
  if 0 <? Z.of_nat (length quizzes) then
    let allScores := allScores quizzes in
    if 0 <? Z.of_nat (length allScores) then
      mkQuizStats totalQuizzes totalAttempts
        (JS.Math_round (inject_Z (reduce_sum allScores)
                        / inject_Z (Z.of_nat (length allScores)))%Q)
        (Math_max allScores)
    else quizStats
  else quizStats.

(** ** Study plans and [PATCH /mark-topic] *)

Module StudyPlan.

Record DailyTask := mkDailyTask {
  task_id : string;                  (* the [_id] of the subdocument *)
  date : Z;
  topic : string;
  completed : bool;
  completedAt : option Z
}.

Record Progress := mkProgress {
  totalTasks : Z;
  completedTasks : Z;
  completionPercentage : Z
}.

Record Doc := mkDoc {
  _id : string;
  user : string;
  dailyTasks : list DailyTask;
  progress : Progress;
  isActive : bool
}.

(** The [pre('save')] hook: "Calculate progress before saving". *)
Definition preSave (this : Doc) : Doc :=
  if 0 <? Z.of_nat (length (dailyTasks this)) then
    let totalTasks := Z.of_nat (length (dailyTasks this)) in
    let completedTasks :=
      Z.of_nat (length (List.filter completed (dailyTasks this))) in
    mkDoc (_id this) (user this) (dailyTasks this)
      (mkProgress totalTasks completedTasks
         (JS.Math_round (inject_Z completedTasks / inject_Z totalTasks * 100)%Q))
      (isActive this)
  else this.

(** [dailyTasks.id(topicId)]: the first subdocument with that [_id]. *)
Fixpoint id (tasks : list DailyTask) (topicId : string) : option DailyTask :=
  match tasks with
  | [] => None
  | task :: tasks' =>
    if bool_decide (task_id task = topicId) then Some task else id tasks' topicId
  end.

(** Writing to the subdocument [dailyTasks.id(topicId)] returned: the array
    with that first subdocument replaced by [f] of it. *)
Fixpoint update_id (f : DailyTask -> DailyTask) (tasks : list DailyTask)
  (topicId : string) : list DailyTask :=
  match tasks with
  | [] => []
  | task :: tasks' =>
    if bool_decide (task_id task = topicId) then f task :: tasks'
    else task :: update_id f tasks' topicId
  end.

(** [task.completed = true; task.completedAt = new Date()]. *)
Definition complete (now : Z) (task : DailyTask) : DailyTask :=
  mkDailyTask (task_id task) (date task) (topic task) true (Some now).

(** The [getUpcomingTasks] method; [today] is its [new Date()]. *)
Definition getUpcomingTasks (this : Doc) (days : Z) (today : Z) : list DailyTask :=
  let futureDate := today + days * 24 * 60 * 60 * 1000 in
  sort_by date
    (List.filter
       (fun task =>
          let taskDate := date task in
          (today <=? taskDate) && (taskDate <=? futureDate)
          && negb (completed task))
       (dailyTasks this)).

End StudyPlan.

Module User.

Record StudyStats := mkStudyStats {
  totalStudyTime : Z;
  streak : Z;
  completedTasks : Z;
  lastActive : Z
}.

(** The [pre('save')] hook of the user model only acts when the password was
    modified, which [PATCH /mark-topic] never does. *)
Record Doc := mkDoc {
  _id : string;
  studyStats : StudyStats
}.

End User.

(** The two collections [PATCH /mark-topic] works on, each keyed by [_id]. *)
Record Db := mkDb {
  studyPlans : gmap string StudyPlan.Doc;
  users : gmap string User.Doc
}.

Record MarkedTask := mkMarkedTask {
  marked_id : string;
  marked_topic : string;
  marked_completed : bool;
  marked_completedAt : option Z
}.

(** The answers of the route; 500 is the [catch] block, reached here when
    [User.findById] finds nobody and [user.studyStats] throws. *)
Inductive MarkResponse :=
| Mark400 (message : string)
| Mark404 (message : string)
| Mark500 (message : string)
| Mark200 (task : MarkedTask) (newStreak : Z).

(** [StudyPlan.findOne({ _id, user, isActive: true })]. *)
Definition selectPlan (db : Db) (studyPlanId usr : string) : option StudyPlan.Doc :=
  match studyPlans db !! studyPlanId with
  | Some plan =>
    if bool_decide (StudyPlan.user plan = usr) && StudyPlan.isActive plan
    then Some plan else None
  | None => None
  end.

(** "Update streak logic": the streak after the route compared [today] with
    the [lastActive] it reads back. *)
Definition updateStreak (streak today lastActive : Z) : Z :=
  let daysDiff :=
    Math_floor (inject_Z (today - lastActive)
                / inject_Z (1000 * 60 * 60 * 24))%Q in
  if daysDiff =? 1 then streak + 1
  else if 1 <? daysDiff then 1
  else streak.

(** The handler.  [clock 0] is the [new Date()] of [task.completedAt],
    [clock 1] that of [user.studyStats.lastActive], [clock 2] that of
    [today]. *)
Definition markTopic (topicId studyPlanId : option string) (usr : string)
  (clock : nat -> Z) (db : Db) : MarkResponse * Db :=
  if negb (truthy_string topicId) || negb (truthy_string studyPlanId) then
    (Mark400 "Topic ID and Study Plan ID are required", db)
  else
    let topicId := default "" topicId in
    let studyPlanId := default "" studyPlanId in
    match selectPlan db studyPlanId usr with
    | None => (Mark404 "Study plan not found", db)
    | Some studyPlan =>
      match StudyPlan.id (StudyPlan.dailyTasks studyPlan) topicId with
      | None => (Mark404 "Task not found", db)
      | Some task =>
        let task := StudyPlan.complete (clock 0%nat) task in
        let studyPlan :=
          StudyPlan.mkDoc (StudyPlan._id studyPlan) (StudyPlan.user studyPlan)
            (StudyPlan.update_id (StudyPlan.complete (clock 0%nat))
               (StudyPlan.dailyTasks studyPlan) topicId)
            (StudyPlan.progress studyPlan) (StudyPlan.isActive studyPlan) in
        let studyPlan := StudyPlan.preSave studyPlan in
        let db :=
          mkDb (<[StudyPlan._id studyPlan := studyPlan]> (studyPlans db))
            (users db) in
        match users db !! usr with
        | None => (Mark500 "Failed to mark topic as complete", db)
        | Some user =>
          let stats := User.studyStats user in
          let completedTasks := User.completedTasks stats + 1 in
          let lastActive := clock 1%nat in
          let today := clock 2%nat in
          let streak := updateStreak (User.streak stats) today lastActive in
          let user :=
            User.mkDoc (User._id user)
              (User.mkStudyStats (User.totalStudyTime stats) streak
                 completedTasks lastActive) in
          (Mark200
             (mkMarkedTask (StudyPlan.task_id task) (StudyPlan.topic task)
                (StudyPlan.completed task) (StudyPlan.completedAt task))
             (User.streak (User.studyStats user)),
           mkDb (studyPlans db) (<[User._id user := user]> (users db)))
        end
      end
    end.

(** Two quizzes for the analytics: 40% and an open attempt, then 75%. *)
Definition twoAttempts : list Quiz.Doc :=
  [Quiz.mkDoc [Quiz.mkAttempt true 40; Quiz.mkAttempt false 0];
   Quiz.mkDoc [Quiz.mkAttempt true 75]].

(** What [PATCH /mark-topic] writes back: the plan with the task marked, as
    its [pre('save')] hook leaves it, and the user with the counters moved. *)
Definition markedPlan (studyPlan : StudyPlan.Doc) (topicId : string) (now : Z)
  : StudyPlan.Doc :=
  StudyPlan.preSave
    (StudyPlan.mkDoc (StudyPlan._id studyPlan) (StudyPlan.user studyPlan)
       (StudyPlan.update_id (StudyPlan.complete now)
          (StudyPlan.dailyTasks studyPlan) topicId)
       (StudyPlan.progress studyPlan) (StudyPlan.isActive studyPlan)).

Definition markedUser (user : User.Doc) (clock : nat -> Z) : User.Doc :=
  User.mkDoc (User._id user)
    (User.mkStudyStats (User.totalStudyTime (User.studyStats user))
       (updateStreak (User.streak (User.studyStats user))
          (clock 2%nat) (clock 1%nat))
       (User.completedTasks (User.studyStats user) + 1)
       (clock 1%nat)).

(** A plan of two open tasks, its owner, and the two collections. *)
Definition examplePlan : StudyPlan.Doc :=
  StudyPlan.mkDoc "p1" "u1"
    [StudyPlan.mkDailyTask "t1" 90000000 "Sets" false None;
     StudyPlan.mkDailyTask "t2" 180000000 "Maps" false None]
    (StudyPlan.mkProgress 2 0 0) true.

Definition exampleUser : User.Doc :=
  User.mkDoc "u1" (User.mkStudyStats 0 3 7 500).

Definition exampleDb : Db :=
  mkDb {[ "p1" := examplePlan ]} {[ "u1" := exampleUser ]}.

(** ** The scheduler on IEEE doubles *)

(** [updateReviewData] once more, with the numbers the code has: the ease
    factor, the quality and the product [interval * easeFactor] are binary64
    doubles and [Math.round] rounds a double.  What the code only ever sets
    to integers (the counters, the interval, the time values of dates) stays
    in [Z]: double arithmetic on integers below 2^53 is exact, and for a
    clock reading between 0 and 2^48 a date whose computation leaves that
    range is out of the range of Date either way.  The method ends with
    [this.save()], which rejects when an assignment could not be cast: NaN
    for a Number, an Invalid Date for a Date.  [quality] is the number that
    [>=] and [-] convert the argument to. *)

Module Double.
Import Floats.
#[local] Set Warnings "-inexact-float".

(** The double of an integer: exact for the integers a double can hold,
    rounded to nearest even otherwise. *)
Definition of_Z (z : Z) : float :=
  SF2Prim (binary_normalize prec emax z 0 false).

(** [Math.round] of a double: the integer [floor (x + 1/2)], computed
    exactly from the mantissa and the exponent of [x]; [None] stands for the
    results that are no integers, NaN and the two infinities. *)
Definition Math_round (x : float) : option Z :=
  match Prim2SF x with
  | S754_zero _ => Some 0
  | S754_finite s m e =>
    let n := if s then Z.neg m else Z.pos m in
    Some (if 0 <=? e then n * 2 ^ e
          else (2 * n + 2 ^ (- e)) / 2 ^ (- e + 1))
  | S754_infinity _ | S754_nan => None
  end.

Record Stats := mkStats {
  timesReviewed : Z;
  correctAnswers : Z;
  incorrectAnswers : Z;
  lastReviewed : option Z;
  averageResponseTime : float
}.

Record ReviewData := mkReviewData {
  interval : Z;
  easeFactor : float;
  nextReview : Z;
  reviewCount : Z
}.

(** The two subdocuments the method reads and writes. *)
Record Flashcard := mkFlashcard {
  stats : Stats;
  reviewData : ReviewData
}.

(** Schema defaults. *)
Definition newFlashcard (now : Z) : Flashcard :=
  mkFlashcard (mkStats 0 0 0 None 0%float) (mkReviewData 1 2.5%float now 0).

(** The greatest time value of a Date, in milliseconds. *)
Definition maxTime : Z := 8640000000000000.

(** [new Date(t)] for an integer [t]: its time value, [None] for an Invalid
    Date. *)
Definition newDate (t : Z) : option Z :=
  if Z.abs t <=? maxTime then Some t else None.

(** Assigning to a Number path: NaN cannot be cast. *)
Definition castNumber (x : float) : option float :=
  if is_nan x then None else Some x.

(** The method; [None] when [this.save()] rejects.  An interval that
    [Math.round] leaves infinite is accepted as a Number and then makes the
    date invalid, so it rejects like NaN does.  [clock 0] and [clock 1] are
    the readings of [new Date()] and [Date.now()], as before. *)
Definition updateReviewData (this : Flashcard) (quality : float) (clock : nat -> Z)
  : option Flashcard :=
  let timesReviewed := timesReviewed (stats this) + 1 in
  let lastReviewed := clock 0%nat in
  let reviewCount := reviewCount (reviewData this) + 1 in
  branch ←
    (if (3 <=? quality)%float then
       let correctAnswers := correctAnswers (stats this) + 1 in
       interval ←
         (if reviewCount =? 1 then Some 1
          else if reviewCount =? 2 then Some 6
          else Math_round (of_Z (interval (reviewData this))
                           * easeFactor (reviewData this))%float);
       easeFactor ←
         castNumber (easeFactor (reviewData this)
                     + (0.1 - (5 - quality) * (0.08 + (5 - quality) * 0.02)))%float;
       Some (correctAnswers, incorrectAnswers (stats this), reviewCount,
             interval, easeFactor)
     else
       let incorrectAnswers := incorrectAnswers (stats this) + 1 in
       Some (correctAnswers (stats this), incorrectAnswers, 0, 1,
             easeFactor (reviewData this)));
  let '(correctAnswers, incorrectAnswers, reviewCount, interval, easeFactor) :=
    branch in
  let easeFactor := if (easeFactor <? 1.3)%float then 1.3%float else easeFactor in
  nextReview ← newDate (clock 1%nat + interval * 24 * 60 * 60 * 1000);
  Some (mkFlashcard
          (mkStats timesReviewed correctAnswers incorrectAnswers
             (Some lastReviewed) (averageResponseTime (stats this)))
          (mkReviewData interval easeFactor nextReview reviewCount)).

(** One review after the other, as long as each is saved. *)
Definition review_all (this : Flashcard) (qualities : list float)
  (clock : nat -> Z) : option Flashcard :=
  foldl (fun card quality => card ≫= fun c => updateReviewData c quality clock)
    (Some this) qualities.

(** The card a run of reviews of a new card leaves; the new card itself when
    one of them is rejected. *)
Definition after (qualities : list float) (clock : nat -> Z) : Flashcard :=
  default (newFlashcard 0) (review_all (newFlashcard 0) qualities clock).

(** Cards for the examples: one right answer; the run 5, 3, 3, 3, 3, 3 and
    the same run with a last 5; fifteen answers of quality 5. *)
Definition once : Flashcard := Eval vm_compute in after [5]%float noon.

Definition streak6 : Flashcard :=
  Eval vm_compute in after [5; 3; 3; 3; 3; 3]%float noon.

Definition streak7 : Flashcard :=
  Eval vm_compute in after [5; 3; 3; 3; 3; 3; 5]%float noon.

Definition streak15 : Flashcard :=
  Eval vm_compute in
    after [5; 5; 5; 5; 5; 5; 5; 5; 5; 5; 5; 5; 5; 5; 5]%float noon.

End Double.

(** The same run of seven reviews in the exact model. *)
Definition exactStreak7 : Flashcard :=
  fold_left (fun c quality => updateReviewData c quality noon)
    [5; 3; 3; 3; 3; 3; 5]%Q (newFlashcard "c1" "u1" "s1" 0).

(** ** The ease-factor arithmetic on IEEE doubles *)

Module Binary64.
Import Floats.
Local Open Scope float_scope.
#[local] Set Warnings "-inexact-float".

(** The success-branch update of [easeFactor], on binary64. *)
Definition easeFactor_success (easeFactor quality : float) : float :=
  easeFactor + (0.1 - (5 - quality) * (0.08 + (5 - quality) * 0.02)).

(** The two doubles the scenarios of the specification name. *)
Definition ef_2_6 : float := 2.6.
Definition ef_2_68 : float := 2.68.

End Binary64.

(** * Properties *)

(** ** Numbers *)

Section JSFacts.
Import JS.

Lemma js_ltb_spec (x y : Q) : ltb x y = true <-> (x < y)%Q.
Proof. unfold ltb, Qlt. apply Z.ltb_lt. Qed.

Lemma js_ltb_ge (x y : Q) : ltb x y = false <-> (y <= x)%Q.
Proof. unfold ltb, Qle. apply Z.ltb_ge. Qed.


Lemma js_geb_lt (x y : Q) : geb x y = false <-> (x < y)%Q.
Proof. unfold geb, Qlt. apply Z.leb_gt. Qed.

Lemma js_truthy_spec (x : Q) : truthy x = true <-> ~ (x == 0)%Q.
Proof.
  unfold truthy. rewrite negb_true_iff. split.
  - intros H E. apply Qeq_bool_iff in E. congruence.
  - intros H. destruct (Qeq_bool x 0) eqn:E; [|reflexivity].
    apply Qeq_bool_iff in E. contradiction.
Qed.

(** [Math.round] of an integer is that integer. *)
Lemma js_Math_round_Z (z : Z) : Math_round (inject_Z z) = z.
Proof.
  unfold Math_round. apply Z.le_antisymm.
  - apply Z.lt_succ_r. rewrite Zlt_Qlt.
    eapply Qle_lt_trans; [apply Qfloor_le|].
    unfold Z.succ. rewrite inject_Z_plus.
    change (inject_Z 1) with 1%Q. lra.
  - rewrite <- (Qfloor_Z z) at 1. apply Qfloor_resp_le. lra.
Qed.

Lemma js_Math_round_zero_div (x : Q) : Math_round (inject_Z 0 / x) = 0.
Proof.
  unfold Math_round.
  assert (inject_Z 0 / x + 0.5 == 0.5)%Q as H by (unfold Qdiv; ring).
  rewrite (Qfloor_comp _ _ H). reflexivity.
Qed.

Lemma js_Math_round_mono (x y : Q) : (x <= y)%Q -> Math_round x <= Math_round y.
Proof. intros H. apply Qfloor_resp_le. lra. Qed.

Lemma js_Math_round_ge (z : Z) (x : Q) : (inject_Z z <= x)%Q -> z <= Math_round x.
Proof. intros H. rewrite <- (js_Math_round_Z z). now apply js_Math_round_mono. Qed.

End JSFacts.

(** ** Field by field: what [updateReviewData] writes *)

(** Unfolds the method and splits on its branch conditions, outermost
    first: the quality test, the two tests on the streak counter, the clamp. *)
Ltac review_simpl :=
  cbn [stats reviewData set_timesReviewed set_lastReviewed set_reviewCount
       set_correctAnswers set_incorrectAnswers set_interval set_easeFactor
       set_nextReview set_stats set_reviewData timesReviewed correctAnswers
       incorrectAnswers lastReviewed averageResponseTime interval easeFactor
       nextReview reviewCount _id user subject isActive].

Ltac review_cases :=
  unfold updateReviewData; review_simpl;
  match goal with
  | |- context [JS.geb ?q 3] => destruct (JS.geb q 3) eqn:?
  end; review_simpl;
  repeat (match goal with
          | |- context [if (?a =? ?b) then _ else _] => destruct (a =? b) eqn:?
          end; review_simpl);
  repeat (match goal with
          | |- context [if JS.ltb ?a ?b then _ else _] =>
            destruct (JS.ltb a b) eqn:?
          end; review_simpl).

Section UpdateReviewData.

Variable this : Flashcard.
Variable quality : Q.
Variable clock : nat -> Z.

Let after := updateReviewData this quality clock.

Lemma updateReviewData_id : _id after = _id this.
Proof. subst after. review_cases; reflexivity. Qed.

Lemma updateReviewData_owner :
  user after = user this /\ subject after = subject this
  /\ isActive after = isActive this.
Proof. subst after. review_cases; auto. Qed.

Lemma updateReviewData_timesReviewed :
  timesReviewed (stats after) = timesReviewed (stats this) + 1.
Proof. subst after. review_cases; reflexivity. Qed.

Lemma updateReviewData_lastReviewed :
  lastReviewed (stats after) = Some (clock 0%nat).
Proof. subst after. review_cases; reflexivity. Qed.

Lemma updateReviewData_averageResponseTime :
  averageResponseTime (stats after) = averageResponseTime (stats this).
Proof. subst after. review_cases; reflexivity. Qed.

Lemma updateReviewData_easeFactor_floor :
  (1.3 <= easeFactor (reviewData after))%Q.
Proof.
  subst after. review_cases;
    try (apply js_ltb_ge; assumption); apply Qle_refl.
Qed.

End UpdateReviewData.

(** ** The invariants of a card *)

Lemma interval_grows (i : Z) (ef : Q) :
  1 <= i -> (1.3 <= ef)%Q -> 1 <= JS.Math_round (inject_Z i * ef)%Q.
Proof.
  intros Hi Hef. apply js_Math_round_ge.
  rewrite Zle_Qle in Hi. change (inject_Z 1) with 1%Q in *.
  apply Qle_trans with (1 * 1)%Q; [lra|].
  apply Qmult_le_compat_nonneg; split; lra.
Qed.

Lemma updateReviewData_counts (c : Flashcard) (quality : Q) (clock : nat -> Z) :
  correctAnswers (stats c) + incorrectAnswers (stats c) = timesReviewed (stats c) ->
  let c' := updateReviewData c quality clock in
  correctAnswers (stats c') + incorrectAnswers (stats c') = timesReviewed (stats c').
Proof. intros H. review_cases; lia. Qed.

Lemma updateReviewData_interval_pos (c : Flashcard) (quality : Q) (clock : nat -> Z) :
  1 <= interval (reviewData c) -> (1.3 <= easeFactor (reviewData c))%Q ->
  1 <= interval (reviewData (updateReviewData c quality clock)).
Proof. intros Hint Hease. review_cases; try lia; now apply interval_grows. Qed.

(** C1.  A review keeps the invariants of the data model: from a card whose
    counters add up ([correctAnswers + incorrectAnswers = timesReviewed]),
    whose ease factor is at least 1.3 and whose interval is at least 1 (a
    new card is one), [updateReviewData] yields a card of which the same
    holds, whatever the quality. *)
Theorem updateReviewData_invariant (c : Flashcard) (quality : Q) (clock : nat -> Z) :
  card_invariant c -> card_invariant (updateReviewData c quality clock).
Proof.
  intros (Hcount & Hease & Hint). unfold card_invariant.
  split; [|split].
  - now apply updateReviewData_counts.
  - apply updateReviewData_easeFactor_floor.
  - now apply updateReviewData_interval_pos.
Qed.

Lemma newFlashcard_invariant (id usr subj : string) (now : Z) :
  card_invariant (newFlashcard id usr subj now).
Proof. unfold card_invariant; cbn. repeat split; [lra | lia]. Qed.

Lemma updateReviewData_invariant_witness :
  card_invariant (newFlashcard "c1" "u1" "s1" 0)
  /\ card_invariant
       (updateReviewData (newFlashcard "c1" "u1" "s1" 0) 5 noon).
Proof.
  assert (card_invariant (newFlashcard "c1" "u1" "s1" 0)) as H.
  { unfold card_invariant; cbn. split; [reflexivity|]. split; [|lia].
    unfold Qle; simpl; lia. }
  split; [exact H|].
  exact (updateReviewData_invariant (newFlashcard "c1" "u1" "s1" 0) 5
           noon H).
Defined.

(** ** The failure branch *)

(** C3.  A review of quality below 3 resets the streak counter to 0 and the
    interval to 1 whatever the card held, adds exactly 1 to
    [incorrectAnswers] and leaves [correctAnswers] as it was. *)
Theorem failure_resets (c : Flashcard) (quality : Q) (clock : nat -> Z) :
  (quality < 3)%Q ->
  let c' := updateReviewData c quality clock in
  reviewCount (reviewData c') = 0
  /\ interval (reviewData c') = 1
  /\ incorrectAnswers (stats c') = incorrectAnswers (stats c) + 1
  /\ correctAnswers (stats c') = correctAnswers (stats c).
Proof.
  intros Hq. apply js_geb_lt in Hq. cbv zeta.
  unfold updateReviewData. rewrite Hq.
  destruct (JS.ltb _ _); cbn; auto.
Qed.

Lemma failure_resets_witness :
  (2 < 3)%Q
  /\ let c := mkFlashcard "c1" "u1" "s1" (mkStats 7 6 1 (Some 5) 4.2%Q)
                (mkReviewData 40 2.9%Q 900 5) true in
     let c' := updateReviewData c 2 noon in
     reviewCount (reviewData c') = 0
     /\ interval (reviewData c') = 1
     /\ incorrectAnswers (stats c') = incorrectAnswers (stats c) + 1
     /\ correctAnswers (stats c') = correctAnswers (stats c).
Proof.
  split.
  - reflexivity.
  - apply (failure_resets
             (mkFlashcard "c1" "u1" "s1" (mkStats 7 6 1 (Some 5) 4.2%Q)
                (mkReviewData 40 2.9%Q 900 5) true) 2 noon).
    reflexivity.
Defined.

(** C7.  A review of quality below 3 does not move the ease factor: it is
    the prior value when that is at least 1.3, and 1.3 (the floor of the
    clamp) when the prior value is below 1.3. *)
Theorem failure_easeFactor (c : Flashcard) (quality : Q) (clock : nat -> Z) :
  (quality < 3)%Q ->
  let c' := updateReviewData c quality clock in
  ((1.3 <= easeFactor (reviewData c))%Q ->
   easeFactor (reviewData c') = easeFactor (reviewData c))
  /\ ((easeFactor (reviewData c) < 1.3)%Q ->
      easeFactor (reviewData c') = 1.3%Q).
Proof.
  intros Hq. apply js_geb_lt in Hq. cbv zeta.
  unfold updateReviewData. rewrite Hq. cbn.
  destruct (JS.ltb (easeFactor (reviewData c)) 1.3) eqn:E; cbn.
  - apply js_ltb_spec in E. split; [intros H; lra | reflexivity].
  - apply js_ltb_ge in E. split; [reflexivity | intros H; lra].
Qed.

Lemma failure_easeFactor_witness :
  (2 < 3)%Q
  /\ easeFactor (reviewData (updateReviewData streakCard 2 noon))
     = easeFactor (reviewData streakCard)
  /\ easeFactor (reviewData (updateReviewData lowEaseCard 2 noon)) = 1.3%Q.
Proof.
  assert (2 < 3)%Q as Hq by reflexivity.
  split; [exact Hq|]. split.
  - destruct (failure_easeFactor streakCard 2 noon Hq) as [Hkeep _].
    apply Hkeep. unfold Qle; simpl; lia.
  - destruct (failure_easeFactor lowEaseCard 2 noon Hq) as [_ Hfloor].
    apply Hfloor. reflexivity.
Defined.

(** ** The review route *)

Lemma updateResponseTime_id (c : Flashcard) (responseTime : option Q) :
  _id (updateResponseTime c responseTime) = _id c.
Proof.
  unfold updateResponseTime.
  destruct responseTime as [rt|]; [destruct (JS.truthy rt)|]; reflexivity.
Qed.

(** The block only writes [averageResponseTime]. *)
Lemma updateResponseTime_frame (c : Flashcard) (responseTime : option Q) :
  reviewData (updateResponseTime c responseTime) = reviewData c
  /\ timesReviewed (stats (updateResponseTime c responseTime))
     = timesReviewed (stats c)
  /\ correctAnswers (stats (updateResponseTime c responseTime))
     = correctAnswers (stats c)
  /\ incorrectAnswers (stats (updateResponseTime c responseTime))
     = incorrectAnswers (stats c).
Proof.
  unfold updateResponseTime.
  destruct responseTime as [rt|]; [destruct (JS.truthy rt)|]; cbn; auto.
Qed.

Lemma updateResponseTime_invariant (c : Flashcard) (responseTime : option Q) :
  card_invariant c -> card_invariant (updateResponseTime c responseTime).
Proof.
  unfold card_invariant.
  destruct (updateResponseTime_frame c responseTime) as (-> & -> & -> & ->).
  auto.
Qed.

Section Review.

Variable req : ReviewRequest.
Variable clock : nat -> Z.
Variable db : gmap string Flashcard.

Lemma review_undefined_quality :
  body_quality req = None -> run (review req clock) db = (InvalidQuality, db).
Proof. intros H. unfold run, review. rewrite H. reflexivity. Qed.

Lemma review_not_found (q : Q) :
  body_quality req = Some q -> (0 <= q <= 5)%Q ->
  selectOne db (params_id req) (user_id req) = None ->
  run (review req clock) db = (Status404 "Flashcard not found", db).
Proof.
  intros Hq [H0 H5] Hsel. unfold run, review. rewrite Hq.
  apply js_ltb_ge in H0. apply js_ltb_ge in H5. unfold JS.gtb.
  rewrite H0, H5. cbn [orb]. unfold bind, findOne. rewrite Hsel. reflexivity.
Qed.

(** A quality in range and a card the query selects: the review goes
    through, answers 200 and writes the reviewed card back under its id. *)
Lemma review_ok (q : Q) (c : Flashcard) :
  body_quality req = Some q -> (0 <= q <= 5)%Q ->
  selectOne db (params_id req) (user_id req) = Some c ->
  run (review req clock) db
  = (Status200 (reviewedJson (reviewedCard c req q clock) (clock 2%nat)),
     <[_id c := reviewedCard c req q clock]> db).
Proof.
  intros Hq [H0 H5] Hsel. unfold run, review. rewrite Hq.
  apply js_ltb_ge in H0. apply js_ltb_ge in H5. unfold JS.gtb.
  rewrite H0, H5. cbn [orb]. unfold bind, findOne. rewrite Hsel.
  unfold save, ret, reviewedCard. rewrite updateReviewData_id.
  now rewrite updateResponseTime_id.
Qed.

(** Conversely a 200 answer only comes that way. *)
Lemma review_200 (r : ReviewedJson) (db' : gmap string Flashcard) :
  run (review req clock) db = (Status200 r, db') ->
  exists q c,
    body_quality req = Some q /\ (0 <= q <= 5)%Q
    /\ selectOne db (params_id req) (user_id req) = Some c
    /\ r = reviewedJson (reviewedCard c req q clock) (clock 2%nat)
    /\ db' = <[_id c := reviewedCard c req q clock]> db.
Proof.
  intros Hrun.
  destruct (body_quality req) as [q|] eqn:Hq;
    [|rewrite review_undefined_quality in Hrun by assumption; discriminate].
  destruct (JS.ltb q 0 || JS.gtb q 5) eqn:Hrange.
  - unfold run, review in Hrun. rewrite Hq, Hrange in Hrun. discriminate.
  - apply orb_false_iff in Hrange as [H0 H5].
    apply js_ltb_ge in H0. apply js_ltb_ge in H5.
    destruct (selectOne db (params_id req) (user_id req)) as [c|] eqn:Hsel.
    + rewrite (review_ok q c) in Hrun by auto.
      injection Hrun as Hr Hdb. exists q, c. auto.
    + rewrite (review_not_found q) in Hrun by auto. discriminate.
Qed.

End Review.

(** A review that goes through keeps the invariants of the stored card. *)
Lemma review_200_invariant (req : ReviewRequest) (clock : nat -> Z)
  (db db' : gmap string Flashcard) (c : Flashcard) (r : ReviewedJson) :
  selectOne db (params_id req) (user_id req) = Some c ->
  card_invariant c ->
  run (review req clock) db = (Status200 r, db') ->
  exists c', db' !! _id c = Some c' /\ card_invariant c'
             /\ res_stats r = stats c' /\ res_reviewData r = reviewData c'.
Proof.
  intros Hsel Hinv Hrun.
  apply review_200 in Hrun as (q & c0 & Hq & Hrange & Hsel0 & -> & ->).
  rewrite Hsel in Hsel0. injection Hsel0 as <-.
  exists (reviewedCard c req q clock). split; [apply lookup_insert_eq|].
  split; [|split; reflexivity].
  assert (card_invariant (updateResponseTime c (body_responseTime req)))
    as (Hcount & Hease & Hint)
    by (now apply updateResponseTime_invariant).
  unfold reviewedCard, card_invariant. split; [|split].
  - now apply updateReviewData_counts.
  - apply updateReviewData_easeFactor_floor.
  - now apply updateReviewData_interval_pos.
Qed.

(** X2.  The invariants hold along the whole life of a card: every card
    that reviews make of a new card has counters that add up, an ease factor
    of at least 1.3 and an interval of at least 1. *)
Lemma reviewed_from_new_invariant (id usr subj : string) (now : Z) (c : Flashcard) :
  reviewed_from (newFlashcard id usr subj now) c -> card_invariant c.
Proof.
  induction 1 as [|c req q clock _ IH].
  - apply newFlashcard_invariant.
  - apply (updateResponseTime_invariant _ (body_responseTime req)) in IH.
    destruct IH as (Hcount & Hease & Hint).
    unfold reviewedCard, card_invariant. split; [|split].
    + now apply updateReviewData_counts.
    + apply updateReviewData_easeFactor_floor.
    + now apply updateReviewData_interval_pos.
Qed.

Lemma reviewed_from_new_invariant_witness :
  let c := scenarioB "c1" "u1" "s1" 0 noon noon in
  reviewed_from (newFlashcard "c1" "u1" "s1" 0) c /\ card_invariant c.
Proof.
  cbv zeta.
  assert (reviewed_from (newFlashcard "c1" "u1" "s1" 0)
            (scenarioB "c1" "u1" "s1" 0 noon noon)) as H.
  { apply (reviewed_once _ _ (mkReviewRequest "c1" "u1" (Some 4%Q) None) 4%Q noon).
    apply (reviewed_once _ _ (mkReviewRequest "c1" "u1" (Some 5%Q) None) 5%Q noon).
    apply reviewed_none. }
  split; [exact H|].
  exact (reviewed_from_new_invariant "c1" "u1" "s1" 0 _ H).
Defined.

(** C4.  A quality outside [0, 5] is answered with the validation error
    before the card is even loaded: the collection, and so every field of
    every card in it, is left exactly as it was. *)
Theorem review_invalid_quality (req : ReviewRequest) (clock : nat -> Z)
  (db : gmap string Flashcard) (q : Q) :
  body_quality req = Some q -> (q < 0 \/ 5 < q)%Q ->
  run (review req clock) db = (InvalidQuality, db).
Proof.
  intros Hq Hout. unfold run, review. rewrite Hq.
  assert (JS.ltb q 0 || JS.gtb q 5 = true) as ->; [|reflexivity].
  apply orb_true_iff. unfold JS.gtb.
  destruct Hout as [H | H]; [left | right]; now apply js_ltb_spec.
Qed.

Lemma review_invalid_quality_witness :
  let c := newFlashcard "c1" "u1" "s1" 0 in
  let db : gmap string Flashcard := {[ "c1" := c ]} in
  (run (review (mkReviewRequest "c1" "u1" (Some (-1)%Q) (Some 3%Q)) noon) db
   = (InvalidQuality, db))
  /\ (run (review (mkReviewRequest "c1" "u1" (Some 6%Q) (Some 3%Q)) noon) db
      = (InvalidQuality, db)).
Proof.
  split.
  - apply (review_invalid_quality
             (mkReviewRequest "c1" "u1" (Some (-1)%Q) (Some 3%Q))
             noon _ (-1)%Q); [reflexivity | left; reflexivity].
  - apply (review_invalid_quality
             (mkReviewRequest "c1" "u1" (Some 6%Q) (Some 3%Q))
             noon _ 6%Q); [reflexivity | right; reflexivity].
Defined.

(** ** The response time *)

Lemma updateResponseTime_absent (c : Flashcard) : updateResponseTime c None = c.
Proof. reflexivity. Qed.

Lemma updateResponseTime_zero (c : Flashcard) (rt : Q) :
  (rt == 0)%Q -> updateResponseTime c (Some rt) = c.
Proof.
  intros H. unfold updateResponseTime, JS.truthy.
  apply Qeq_bool_iff in H. rewrite H. reflexivity.
Qed.

(** A response time other than 0 enters the running mean, taken with the
    [timesReviewed] the card holds before the review counts itself. *)
Lemma updateResponseTime_mean (c : Flashcard) (rt : Q) :
  ~ (rt == 0)%Q ->
  averageResponseTime (stats (updateResponseTime c (Some rt)))
  = runningMean (averageResponseTime (stats c)) (timesReviewed (stats c)) rt.
Proof.
  intros H. apply js_truthy_spec in H. unfold updateResponseTime.
  rewrite H. reflexivity.
Qed.

Lemma review_responseTime_mean (req : ReviewRequest) (clock : nat -> Z)
  (db db' : gmap string Flashcard) (c : Flashcard) (r : ReviewedJson) (rt : Q) :
  selectOne db (params_id req) (user_id req) = Some c ->
  body_responseTime req = Some rt -> ~ (rt == 0)%Q ->
  run (review req clock) db = (Status200 r, db') ->
  averageResponseTime (res_stats r)
  = runningMean (averageResponseTime (stats c)) (timesReviewed (stats c)) rt.
Proof.
  intros Hsel Hrt Hnz Hrun.
  apply review_200 in Hrun as (q & c0 & Hq & Hrange & Hsel0 & -> & ->).
  rewrite Hsel in Hsel0. injection Hsel0 as <-.
  unfold reviewedCard, reviewedJson. cbn [res_stats].
  rewrite updateReviewData_averageResponseTime, Hrt.
  now apply updateResponseTime_mean.
Qed.

Lemma review_responseTime_absent (req : ReviewRequest) (clock : nat -> Z)
  (db db' : gmap string Flashcard) (c : Flashcard) (r : ReviewedJson) :
  selectOne db (params_id req) (user_id req) = Some c ->
  body_responseTime req = None ->
  run (review req clock) db = (Status200 r, db') ->
  averageResponseTime (res_stats r) = averageResponseTime (stats c).
Proof.
  intros Hsel Hrt Hrun.
  apply review_200 in Hrun as (q & c0 & Hq & Hrange & Hsel0 & -> & ->).
  rewrite Hsel in Hsel0. injection Hsel0 as <-.
  unfold reviewedCard, reviewedJson. cbn [res_stats].
  now rewrite updateReviewData_averageResponseTime, Hrt.
Qed.

Lemma selectOne_singleton (c : Flashcard) :
  isActive c = true -> selectOne {[ _id c := c ]} (_id c) (user c) = Some c.
Proof.
  intros H. unfold selectOne. rewrite lookup_singleton_eq.
  rewrite bool_decide_eq_true_2 by reflexivity. now rewrite H.
Qed.

(** C8, at a response time of 0.  The review goes through, the running mean
    of the specification over the two samples 10 and 0 is 5, and the route
    leaves [averageResponseTime] at 10: its guard [if (responseTime)] takes
    the provided 0 for a missing value. *)
Theorem review_responseTime_zero_skipped :
  exists r db',
    run (review instantReview noon) {[ "c1" := slowCard ]}
    = (Status200 r, db')
    /\ averageResponseTime (res_stats r) = 10%Q
    /\ (runningMean (averageResponseTime (stats slowCard))
          (timesReviewed (stats slowCard)) 0 == 5)%Q
    /\ ~ (averageResponseTime (res_stats r)
          == runningMean (averageResponseTime (stats slowCard))
               (timesReviewed (stats slowCard)) 0)%Q.
Proof.
  eexists _, _. split.
  - apply (review_ok instantReview _ _ 4%Q slowCard).
    + reflexivity.
    + split; discriminate.
    + apply (selectOne_singleton slowCard). reflexivity.
  - cbn. repeat split; discriminate.
Qed.

(** C10.  A request whose [responseTime] is 0 is handled exactly as the same
    request without the field: same answer, same collection afterwards; and
    when the review goes through, [averageResponseTime] is what the stored
    card held. *)
Theorem review_zero_responseTime (req : ReviewRequest) (clock : nat -> Z)
  (db : gmap string Flashcard) (rt : Q) :
  body_responseTime req = Some rt -> (rt == 0)%Q ->
  run (review req clock) db = run (review (withoutResponseTime req) clock) db
  /\ forall c r db',
       selectOne db (params_id req) (user_id req) = Some c ->
       run (review req clock) db = (Status200 r, db') ->
       averageResponseTime (res_stats r) = averageResponseTime (stats c).
Proof.
  intros Hrt Hz. split.
  - unfold run, review, withoutResponseTime. cbn [body_quality
      body_responseTime params_id user_id]. rewrite Hrt.
    destruct (body_quality req) as [q|]; [|reflexivity].
    destruct (JS.ltb q 0 || JS.gtb q 5); [reflexivity|].
    unfold bind, findOne.
    destruct (selectOne db (params_id req) (user_id req)) as [c|];
      [|reflexivity].
    now rewrite updateResponseTime_zero, updateResponseTime_absent.
  - intros c r db' Hsel Hrun.
    apply review_200 in Hrun as (q & c0 & Hq & Hrange & Hsel0 & -> & ->).
    rewrite Hsel in Hsel0. injection Hsel0 as <-.
    unfold reviewedCard, reviewedJson. cbn [res_stats].
    rewrite updateReviewData_averageResponseTime, Hrt.
    now rewrite updateResponseTime_zero.
Qed.

Lemma review_zero_responseTime_witness :
  let db : gmap string Flashcard := {[ "c1" := slowCard ]} in
  let c' := reviewedCard slowCard instantReview 4 noon in
  body_responseTime instantReview = Some 0%Q
  /\ run (review instantReview noon) db
     = run (review (withoutResponseTime instantReview) noon) db
  /\ run (review instantReview noon) db
     = (Status200 (reviewedJson c' (noon 2%nat)), <["c1" := c']> db)
  /\ averageResponseTime (stats c') = 10%Q.
Proof.
  cbv zeta.
  assert (selectOne {[ "c1" := slowCard ]} "c1" "u1" = Some slowCard) as Hsel
    by (apply (selectOne_singleton slowCard); reflexivity).
  assert (run (review instantReview noon) {[ "c1" := slowCard ]}
          = (Status200 (reviewedJson (reviewedCard slowCard instantReview 4 noon)
                          (noon 2%nat)),
             <["c1" := reviewedCard slowCard instantReview 4 noon]>
               {[ "c1" := slowCard ]})) as Hrun.
  { apply (review_ok instantReview noon _ 4%Q slowCard);
      [reflexivity | split; discriminate | exact Hsel]. }
  destruct (review_zero_responseTime instantReview noon
              {[ "c1" := slowCard ]} 0%Q eq_refl eq_refl) as [Hsame Hkept].
  split; [reflexivity|]. split; [exact Hsame|]. split; [exact Hrun|].
  exact (Hkept slowCard _ _ Hsel Hrun).
Defined.

(** ** The ease factor and the scenarios *)

Lemma updateReviewData_easeFactor (c : Flashcard) (quality : Q) (clock : nat -> Z) :
  easeFactor (reviewData (updateReviewData c quality clock))
  = floorEase (if JS.geb quality 3
               then (easeFactor (reviewData c) + easeDelta quality)%Q
               else easeFactor (reviewData c)).
Proof.
  unfold floorEase, easeDelta. review_cases; reflexivity.
Qed.

Lemma easeDelta_4 : (easeDelta 4 == 0)%Q.
Proof. reflexivity. Qed.

(** C5 as stated fails on its last figure: after scenarios A and B the ease
    factor is 2.6, at distance 0.08 from 2.68. *)
Lemma scenarioB_easeFactor_is_not_2_68 :
  let b := scenarioB "c1" "u1" "s1" 0 noon (fun _ => 2000) in
  (easeFactor (reviewData b) == 2.6)%Q
  /\ (Qabs (easeFactor (reviewData b) - 2.68) == 0.08)%Q
  /\ ~ (Qabs (easeFactor (reviewData b) - 2.68) <= 0.05)%Q.
Proof.
  cbv zeta. split; [reflexivity | split; [reflexivity |]].
  intros H. vm_compute in H. apply H. reflexivity.
Qed.

(** C5, amended.  From a new card, a review of quality 5 gives
    [reviewCount = 1], [interval = 1], [easeFactor = 2.6],
    [correctAnswers = 1] and [timesReviewed = 1]; a review of quality 4 of
    that card gives [reviewCount = 2], [interval = 6] and leaves the ease
    factor at 2.6, the term added for quality 4 being 0.  In general a
    success adds [0.1 - (5 - quality) * (0.08 + (5 - quality) * 0.02)] to the
    ease factor, a failure adds nothing, and the result is clamped at 1.3. *)
Theorem scenarios_A_B :
  (forall (id usr subj : string) (now : Z) (clockA clockB : nat -> Z),
     let a := scenarioA id usr subj now clockA in
     let b := scenarioB id usr subj now clockA clockB in
     (reviewCount (reviewData a) = 1 /\ interval (reviewData a) = 1
      /\ (easeFactor (reviewData a) == 2.6)%Q
      /\ correctAnswers (stats a) = 1 /\ timesReviewed (stats a) = 1)
     /\ (reviewCount (reviewData b) = 2 /\ interval (reviewData b) = 6
         /\ (easeFactor (reviewData b) == 2.6)%Q))
  /\ (easeDelta 5 == 0.1)%Q /\ (easeDelta 4 == 0)%Q
  /\ (forall (c : Flashcard) (quality : Q) (clock : nat -> Z),
        easeFactor (reviewData (updateReviewData c quality clock))
        = floorEase (if JS.geb quality 3
                     then (easeFactor (reviewData c) + easeDelta quality)%Q
                     else easeFactor (reviewData c))).
Proof.
  split; [|split; [|split]].
  - intros. cbv zeta. repeat split.
  - reflexivity.
  - exact easeDelta_4.
  - exact updateReviewData_easeFactor.
Qed.

(** ** The aggregate success rate *)

Lemma sum_from (rates : list Z) (acc : Z) :
  fold_left Z.add rates acc = acc + reduce_sum rates.
Proof.
  unfold reduce_sum. revert acc.
  induction rates as [|r rates IH]; intros acc; simpl.
  - lia.
  - rewrite (IH (acc + r)), (IH (0 + r)). lia.
Qed.

Lemma sum_cons (r : Z) (rates : list Z) :
  reduce_sum (r :: rates) = r + reduce_sum rates.
Proof. unfold reduce_sum at 1. simpl. apply sum_from. Qed.

Lemma successRate_never_reviewed (c : Flashcard) :
  timesReviewed (stats c) = 0 -> successRate c = 0.
Proof. intros H. unfold successRate. rewrite H. reflexivity. Qed.

(** Cards that were never reviewed add nothing to the sum of the rates. *)
Lemma sum_successRate_reviewed (cards : list Flashcard) :
  Forall (fun c => 0 <= timesReviewed (stats c)) cards ->
  reduce_sum (map successRate cards) = reduce_sum (map successRate (reviewedCards cards)).
Proof.
  unfold reviewedCards.
  induction 1 as [|c cards Hc _ IH]; [reflexivity|].
  rewrite filter_cons. cbn [map]. case_decide as Hpos.
  - cbn [map]. rewrite !sum_cons. now rewrite IH.
  - rewrite sum_cons, IH, successRate_never_reviewed by lia. lia.
Qed.

Lemma sum_successRate_none_reviewed (cards : list Flashcard) :
  Forall (fun c => timesReviewed (stats c) = 0) cards ->
  reduce_sum (map successRate cards) = 0.
Proof.
  induction 1 as [|c cards Hc _ IH]; [reflexivity|].
  cbn [map]. rewrite sum_cons, IH, successRate_never_reviewed by assumption.
  reflexivity.
Qed.

Lemma averageSuccessRate_unfold (cards : list Flashcard) :
  cards <> [] ->
  averageSuccessRate (flashcardStats cards)
  = JS.Math_round (inject_Z (reduce_sum (map successRate cards))
                   / inject_Z (Z.of_nat (length cards)))%Q.
Proof.
  intros Hne. unfold flashcardStats. cbn [averageSuccessRate].
  destruct cards as [|c cards]; [contradiction|].
  rewrite length_map.
  assert ((0 <? Z.of_nat (length (c :: cards))) = true) as ->; [|reflexivity].
  apply Z.ltb_lt. cbn [length]. lia.
Qed.

(** C6 as stated fails: with one card answered right once and one card never
    reviewed, the route reports 50 where the mean over the reviewed cards
    is 100. *)
Lemma averageSuccessRate_counts_unseen_cards :
  let cards := [knownCard; unseenCard] in
  cards <> []
  /\ averageSuccessRate (flashcardStats cards) = 50
  /\ averageSuccessRate_spec cards = 100
  /\ averageSuccessRate (flashcardStats cards) <> averageSuccessRate_spec cards.
Proof.
  cbv zeta. split; [discriminate|].
  split; [vm_compute; reflexivity|].
  split; [vm_compute; reflexivity|].
  vm_compute. discriminate.
Qed.

(** C6, amended.  Over cards whose review counts are not negative, the
    aggregate of a non-empty collection is the sum of [successRate] over the
    cards with [timesReviewed > 0] divided by the number of all cards of the
    collection, rounded by [Math.round]; it is 0 when no card of the
    collection has been reviewed. *)
Theorem averageSuccessRate_over_all (cards : list Flashcard) :
  Forall (fun c => 0 <= timesReviewed (stats c)) cards ->
  (cards <> [] ->
   averageSuccessRate (flashcardStats cards)
   = JS.Math_round (inject_Z (reduce_sum (map successRate (reviewedCards cards)))
                    / inject_Z (Z.of_nat (length cards)))%Q)
  /\ (reviewedCards cards = [] -> averageSuccessRate (flashcardStats cards) = 0).
Proof.
  intros Hnonneg. split.
  - intros Hne. rewrite averageSuccessRate_unfold by assumption.
    now rewrite sum_successRate_reviewed.
  - intros Hnone. destruct cards as [|c cards]; [reflexivity|].
    rewrite averageSuccessRate_unfold by discriminate.
    rewrite sum_successRate_reviewed, Hnone by assumption.
    apply js_Math_round_zero_div.
Qed.

Lemma averageSuccessRate_over_all_witness :
  (Forall (fun c => 0 <= timesReviewed (stats c)) [knownCard; unseenCard]
   /\ [knownCard; unseenCard] <> []
   /\ averageSuccessRate (flashcardStats [knownCard; unseenCard])
      = JS.Math_round (inject_Z (successRate knownCard) / inject_Z 2)%Q)
  /\ (Forall (fun c => 0 <= timesReviewed (stats c)) [unseenCard]
      /\ reviewedCards [unseenCard] = []
      /\ averageSuccessRate (flashcardStats [unseenCard]) = 0).
Proof.
  assert (Forall (fun c => 0 <= timesReviewed (stats c)) [knownCard; unseenCard])
    as H2 by (repeat constructor; discriminate).
  assert (Forall (fun c => 0 <= timesReviewed (stats c)) [unseenCard])
    as H1 by (repeat constructor; discriminate).
  split.
  - split; [exact H2|]. split; [discriminate|].
    destruct (averageSuccessRate_over_all [knownCard; unseenCard] H2) as [Hmean _].
    exact (Hmean ltac:(discriminate)).
  - split; [exact H1|]. split; [reflexivity|].
    destruct (averageSuccessRate_over_all [unseenCard] H1) as [_ Hzero].
    exact (Hzero eq_refl).
Defined.

(** ** Scenarios A and B on IEEE doubles *)

Section Binary64Facts.
Import Floats.
Local Open Scope float_scope.

(** On binary64 too, quality 5 takes 2.5 to the double written [2.6]. *)
Example scenarioA_binary64 :
  Binary64.easeFactor_success 2.5 5 = Binary64.ef_2_6.
Proof. vm_compute. reflexivity. Qed.

(** And quality 4 leaves that double where it is, below the double written
    [2.68]. *)
Example scenarioB_binary64 :
  Binary64.easeFactor_success Binary64.ef_2_6 4 = Binary64.ef_2_6
  /\ (Binary64.ef_2_6 <? Binary64.ef_2_68) = true.
Proof. split; vm_compute; reflexivity. Qed.

End Binary64Facts.

(** * Further properties of the scheduler *)

(** ** Percentages *)

Lemma percent_bounds (part whole : Z) :
  0 <= part <= whole -> 0 < whole ->
  0 <= JS.Math_round (inject_Z part / inject_Z whole * 100)%Q <= 100.
Proof.
  intros [Hpart Hle] Hpos.
  assert (0 < inject_Z whole)%Q as Hw
    by (change 0%Q with (inject_Z 0); now rewrite <- Zlt_Qlt).
  assert (0 <= inject_Z part / inject_Z whole)%Q as Hlo.
  { apply Qle_shift_div_l; [exact Hw|].
    rewrite Qmult_0_l.
    change 0%Q with (inject_Z 0). now rewrite <- Zle_Qle. }
  assert (inject_Z part / inject_Z whole <= 1)%Q as Hhi.
  { apply Qle_shift_div_r; [exact Hw|].
    rewrite Qmult_1_l. now rewrite <- Zle_Qle. }
  set (ratio := (inject_Z part / inject_Z whole)%Q) in *. clearbody ratio.
  split.
  - apply js_Math_round_ge. change (inject_Z 0) with 0%Q. lra.
  - apply Z.le_trans with (JS.Math_round 100%Q).
    + apply js_Math_round_mono. lra.
    + vm_compute. discriminate.
Qed.

(** X1.  The success rate of a card whose right answers are between 0 and
    its number of reviews is a percentage: it lies between 0 and 100, and it
    is 100 when every review was answered right. *)
Theorem successRate_percentage (c : Flashcard) :
  0 <= correctAnswers (stats c) <= timesReviewed (stats c) ->
  0 <= successRate c <= 100
  /\ (0 < timesReviewed (stats c) ->
      correctAnswers (stats c) = timesReviewed (stats c) -> successRate c = 100).
Proof.
  intros Hc. unfold successRate. split.
  - destruct (timesReviewed (stats c) =? 0) eqn:E; [lia|].
    apply Z.eqb_neq in E. apply percent_bounds; lia.
  - intros Hpos Hall. rewrite Hall.
    destruct (timesReviewed (stats c) =? 0) eqn:E; [apply Z.eqb_eq in E; lia|].
    transitivity (JS.Math_round 100%Q); [|reflexivity].
    unfold JS.Math_round. apply Qfloor_comp.
    assert (~ inject_Z (timesReviewed (stats c)) == 0)%Q as Hnz.
    { change 0%Q with (inject_Z 0). rewrite inject_Z_injective. lia. }
    field. exact Hnz.
Qed.

Lemma successRate_percentage_witness :
  0 <= correctAnswers (stats knownCard) <= timesReviewed (stats knownCard)
  /\ 0 <= successRate knownCard <= 100
  /\ successRate knownCard = 100.
Proof.
  assert (0 <= correctAnswers (stats knownCard) <= timesReviewed (stats knownCard))
    as H by (cbn; lia).
  destruct (successRate_percentage knownCard H) as [Hb Hall].
  split; [exact H|]. split; [exact Hb|].
  apply Hall; [cbn; lia | reflexivity].
Defined.

(** ** Cards along their life *)

Lemma round_not_below (i : Z) (ef : Q) :
  0 <= i -> (1.3 <= ef)%Q -> i <= JS.Math_round (inject_Z i * ef)%Q.
Proof.
  intros Hi Hef. apply js_Math_round_ge.
  rewrite Zle_Qle in Hi. change (inject_Z 0) with 0%Q in Hi.
  apply Qle_trans with (inject_Z i * 1)%Q; [lra|].
  apply Qmult_le_compat_nonneg; split; lra.
Qed.


Lemma updateReviewData_streak (c : Flashcard) (quality : Q) (clock : nat -> Z) :
  streak_invariant c -> (1.3 <= easeFactor (reviewData c))%Q ->
  streak_invariant (updateReviewData c quality clock).
Proof.
  intros (H0 & Hrc & Hinc & Hsum & H6) Hease. unfold streak_invariant.
  review_cases;
    repeat match goal with
           | H : (_ =? _) = true |- _ => apply Z.eqb_eq in H
           | H : (_ =? _) = false |- _ => apply Z.eqb_neq in H
           end;
    repeat split; try lia.
  all: intros _; apply Z.le_trans with (interval (reviewData c)); [lia|];
    apply round_not_below; [lia | assumption].
Qed.

Lemma newFlashcard_streak (id usr subj : string) (now : Z) :
  streak_invariant (newFlashcard id usr subj now).
Proof. unfold streak_invariant; cbn. repeat split; lia. Qed.

Lemma reviewed_from_new_both (id usr subj : string) (now : Z) (c : Flashcard) :
  reviewed_from (newFlashcard id usr subj now) c ->
  card_invariant c /\ streak_invariant c.
Proof.
  induction 1 as [|c req q clock _ [IHc IHs]].
  - split; [apply newFlashcard_invariant | apply newFlashcard_streak].
  - pose proof (updateResponseTime_frame c (body_responseTime req))
      as (Hrd & Ht & Hc & Hi).
    assert (card_invariant (updateResponseTime c (body_responseTime req)))
      as (Hcount & Hease & Hint) by now apply updateResponseTime_invariant.
    unfold reviewedCard. split.
    + unfold card_invariant. split; [|split].
      * now apply updateReviewData_counts.
      * apply updateReviewData_easeFactor_floor.
      * now apply updateReviewData_interval_pos.
    + apply updateReviewData_streak; [|assumption].
      unfold streak_invariant. rewrite Hrd, Ht, Hc, Hi. exact IHs.
Qed.

(** X3.  Whatever reviews a new card has been through, its streak counter
    is between 0 and its count of right answers, which is at most its
    number of reviews, and its success rate is a percentage. *)
Theorem reviewed_from_new_counters (id usr subj : string) (now : Z) (c : Flashcard) :
  reviewed_from (newFlashcard id usr subj now) c ->
  0 <= reviewCount (reviewData c) <= correctAnswers (stats c)
  /\ correctAnswers (stats c) <= timesReviewed (stats c)
  /\ 0 <= successRate c <= 100.
Proof.
  intros Hreach.
  apply reviewed_from_new_both in Hreach as [_ (H0 & Hrc & Hinc & Hsum & _)].
  split; [lia|]. split; [lia|].
  unfold successRate. destruct (timesReviewed (stats c) =? 0) eqn:E; [lia|].
  apply Z.eqb_neq in E. apply percent_bounds; lia.
Qed.

Lemma reviewed_from_new_counters_witness :
  let c := scenarioB "c1" "u1" "s1" 0 noon noon in
  reviewed_from (newFlashcard "c1" "u1" "s1" 0) c
  /\ 0 <= reviewCount (reviewData c) <= correctAnswers (stats c)
  /\ correctAnswers (stats c) <= timesReviewed (stats c)
  /\ 0 <= successRate c <= 100.
Proof.
  cbv zeta.
  assert (reviewed_from (newFlashcard "c1" "u1" "s1" 0)
            (scenarioB "c1" "u1" "s1" 0 noon noon)) as H.
  { apply (reviewed_once _ _ (mkReviewRequest "c1" "u1" (Some 4%Q) None) 4%Q noon).
    apply (reviewed_once _ _ (mkReviewRequest "c1" "u1" (Some 5%Q) None) 5%Q noon).
    apply reviewed_none. }
  split; [exact H|].
  exact (reviewed_from_new_counters "c1" "u1" "s1" 0 _ H).
Defined.



(** ** When a reviewed card is due again *)

Lemma nextReview_lower_bound (c : Flashcard) (quality : Q) (clock : nat -> Z) :
  card_invariant c ->
  clock 1%nat + 24 * 60 * 60 * 1000
  <= nextReview (reviewData (updateReviewData c quality clock)).
Proof.
  intros (_ & Hease & Hint).
  pose proof (updateReviewData_interval_pos c quality clock Hint Hease) as Hpos.
  assert (nextReview (reviewData (updateReviewData c quality clock))
          = clock 1%nat
            + interval (reviewData (updateReviewData c quality clock))
              * 24 * 60 * 60 * 1000) as -> by (review_cases; reflexivity).
  lia.
Qed.

(** X6.  After a wrong answer (quality below 3) the card is due again
    exactly from 24 hours after the [Date.now()] of the review, whatever
    interval it had reached. *)
Theorem failed_card_due_next_day (c : Flashcard) (quality : Q) (clock : nat -> Z)
  (today : Z) :
  (quality < 3)%Q ->
  isDue (updateReviewData c quality clock) today = true
  <-> clock 1%nat + 24 * 60 * 60 * 1000 <= today.
Proof.
  intros Hq. apply js_geb_lt in Hq.
  unfold isDue, updateReviewData. rewrite Hq.
  destruct (JS.ltb _ _); cbn [nextReview reviewData set_nextReview
    set_reviewData set_easeFactor set_interval interval];
    rewrite Z.leb_le; lia.
Qed.

Lemma failed_card_due_next_day_witness :
  (2 < 3)%Q
  /\ (isDue (updateReviewData streakCard 2 noon) 86401000 = true
      <-> noon 1%nat + 24 * 60 * 60 * 1000 <= 86401000).
Proof.
  split; [reflexivity|].
  apply (failed_card_due_next_day streakCard 2 noon 86401000). reflexivity.
Defined.

(** * Further properties of the flashcard routes *)

(** ** Reviews and the rest of the collection *)

Lemma selectOne_Some (db : gmap string Flashcard) (id usr : string) (c : Flashcard) :
  selectOne db id usr = Some c <->
  db !! id = Some c /\ user c = usr /\ isActive c = true.
Proof.
  unfold selectOne. destruct (db !! id) as [d|]; [|split; [discriminate | intros [? _]; discriminate]].
  destruct (bool_decide (user d = usr)) eqn:Eu; cbn [andb].
  - apply bool_decide_eq_true in Eu. destruct (isActive d) eqn:Ea.
    + split; [intros [= <-]; auto | intros ([= <-] & _ & _); reflexivity].
    + split; [discriminate | intros ([= <-] & _ & Hact); congruence].
  - apply bool_decide_eq_false in Eu.
    split; [discriminate | intros ([= <-] & Hu & _); contradiction].
Qed.

Lemma selectOne_keyed (db : gmap string Flashcard) (id usr : string) (c : Flashcard) :
  keyed_by_id db -> selectOne db id usr = Some c -> _id c = id.
Proof. intros Hkey Hsel. apply selectOne_Some in Hsel as [Hc _]. eauto. Qed.

Lemma reviewedCard_frame (c : Flashcard) (req : ReviewRequest) (q : Q)
  (clock : nat -> Z) :
  _id (reviewedCard c req q clock) = _id c
  /\ user (reviewedCard c req q clock) = user c
  /\ subject (reviewedCard c req q clock) = subject c
  /\ isActive (reviewedCard c req q clock) = isActive c.
Proof.
  unfold reviewedCard.
  destruct (updateReviewData_owner (updateResponseTime c (body_responseTime req))
              q clock) as (-> & -> & ->).
  rewrite updateReviewData_id.
  unfold updateResponseTime.
  destruct (body_responseTime req) as [rt|]; [destruct (JS.truthy rt)|];
    cbn; auto.
Qed.

Lemma keyed_by_id_insert (db : gmap string Flashcard) (c : Flashcard) :
  keyed_by_id db -> keyed_by_id (<[_id c := c]> db).
Proof.
  intros Hkey k d. rewrite lookup_insert. case_decide as E.
  - intros [= <-]. exact E.
  - apply Hkey.
Qed.

(** X9.  A review that is not answered with 200 writes nothing: the
    collection after the request is the collection before it. *)
Theorem review_failure_writes_nothing (req : ReviewRequest) (clock : nat -> Z)
  (db db' : gmap string Flashcard) (r : Response) :
  run (review req clock) db = (r, db') ->
  (forall flashcard, r <> Status200 flashcard) ->
  db' = db.
Proof.
  intros Hrun Hfail.
  destruct (body_quality req) as [q|] eqn:Hq.
  - destruct (JS.ltb q 0 || JS.gtb q 5) eqn:Hrange.
    + unfold run, review in Hrun. rewrite Hq, Hrange in Hrun.
      now injection Hrun as _ <-.
    + apply orb_false_iff in Hrange as [H0 H5].
      apply js_ltb_ge in H0. apply js_ltb_ge in H5.
      destruct (selectOne db (params_id req) (user_id req)) as [c|] eqn:Hsel.
      * rewrite (review_ok req clock db q c) in Hrun by auto.
        injection Hrun as <- _. exfalso. eapply Hfail. reflexivity.
      * rewrite (review_not_found req clock db q) in Hrun by auto.
        now injection Hrun as _ <-.
  - rewrite review_undefined_quality in Hrun by assumption.
    now injection Hrun as _ <-.
Qed.

Lemma review_failure_writes_nothing_witness :
  let db : gmap string Flashcard := {[ "c1" := slowCard ]} in
  let req := mkReviewRequest "c1" "u2" (Some 4%Q) None in
  run (review req noon) db = (Status404 "Flashcard not found", db)
  /\ (forall flashcard, Status404 "Flashcard not found" <> Status200 flashcard)
  /\ db = db.
Proof.
  cbv zeta.
  assert (run (review (mkReviewRequest "c1" "u2" (Some 4%Q) None) noon)
            {[ "c1" := slowCard ]}
          = (Status404 "Flashcard not found", {[ "c1" := slowCard ]})) as Hrun.
  { apply (review_not_found _ _ _ 4%Q); [reflexivity | split; discriminate |].
    unfold selectOne. rewrite lookup_singleton_eq. reflexivity. }
  assert (forall flashcard, Status404 "Flashcard not found" <> Status200 flashcard)
    as Hne by discriminate.
  split; [exact Hrun|]. split; [exact Hne|].
  exact (review_failure_writes_nothing _ _ _ _ _ Hrun Hne).
Defined.

(** X10.  A review that goes through rewrites the reviewed card only: every
    other key of the collection holds what it held, and the card written
    back has the id, the owner, the subject and the [isActive] flag of the
    card read, and the [stats] and [reviewData] of the answer. *)
Theorem review_touches_one_card (req : ReviewRequest) (clock : nat -> Z)
  (db db' : gmap string Flashcard) (c : Flashcard) (r : ReviewedJson) :
  selectOne db (params_id req) (user_id req) = Some c ->
  run (review req clock) db = (Status200 r, db') ->
  (forall k, k <> _id c -> db' !! k = db !! k)
  /\ exists c', db' !! _id c = Some c'
       /\ _id c' = _id c /\ user c' = user c /\ subject c' = subject c
       /\ isActive c' = isActive c
       /\ stats c' = res_stats r /\ reviewData c' = res_reviewData r.
Proof.
  intros Hsel Hrun.
  apply review_200 in Hrun as (q & c0 & Hq & Hrange & Hsel0 & -> & ->).
  rewrite Hsel in Hsel0. injection Hsel0 as <-.
  split.
  - intros k Hk. now apply lookup_insert_ne.
  - exists (reviewedCard c req q clock). split; [apply lookup_insert_eq|].
    destruct (reviewedCard_frame c req q clock) as (-> & -> & -> & ->).
    repeat split.
Qed.

Lemma review_touches_one_card_witness :
  let db : gmap string Flashcard := {[ "c1" := slowCard ]} in
  let c' := reviewedCard slowCard instantReview 4 noon in
  selectOne db "c1" "u1" = Some slowCard
  /\ run (review instantReview noon) db
     = (Status200 (reviewedJson c' (noon 2%nat)), <["c1" := c']> db)
  /\ (forall k, k <> "c1" -> (<["c1" := c']> db) !! k = db !! k).
Proof.
  cbv zeta.
  assert (selectOne {[ "c1" := slowCard ]} "c1" "u1" = Some slowCard) as Hsel
    by (apply (selectOne_singleton slowCard); reflexivity).
  assert (run (review instantReview noon) {[ "c1" := slowCard ]}
          = (Status200 (reviewedJson (reviewedCard slowCard instantReview 4 noon)
                          (noon 2%nat)),
             <["c1" := reviewedCard slowCard instantReview 4 noon]>
               {[ "c1" := slowCard ]})) as Hrun.
  { apply (review_ok instantReview noon _ 4%Q slowCard);
      [reflexivity | split; discriminate | exact Hsel]. }
  split; [exact Hsel|]. split; [exact Hrun|].
  exact (proj1 (review_touches_one_card instantReview noon _ _ slowCard _
                  Hsel Hrun)).
Defined.

(** X11.  Nobody reviews a card of another user, a deleted card or a card
    that does not exist: with a valid quality the answer is 404 and the
    collection is untouched. *)
Theorem review_foreign_card (req : ReviewRequest) (clock : nat -> Z)
  (db : gmap string Flashcard) (q : Q) :
  body_quality req = Some q -> (0 <= q <= 5)%Q ->
  (forall c, db !! params_id req = Some c ->
             user c <> user_id req \/ isActive c = false) ->
  run (review req clock) db = (Status404 "Flashcard not found", db).
Proof.
  intros Hq Hrange Hforeign. apply (review_not_found req clock db q); auto.
  destruct (selectOne db (params_id req) (user_id req)) as [c|] eqn:Hsel;
    [|reflexivity].
  apply selectOne_Some in Hsel as (Hc & Hu & Ha).
  destruct (Hforeign c Hc); congruence.
Qed.

Lemma review_foreign_card_witness :
  let db : gmap string Flashcard := {[ "c1" := slowCard ]} in
  let req := mkReviewRequest "c1" "u2" (Some 4%Q) None in
  body_quality req = Some 4%Q /\ (0 <= 4 <= 5)%Q
  /\ (forall c, db !! params_id req = Some c ->
                user c <> user_id req \/ isActive c = false)
  /\ run (review req noon) db = (Status404 "Flashcard not found", db).
Proof.
  cbv zeta.
  assert (0 <= 4 <= 5)%Q as Hr by (split; discriminate).
  assert (forall c, ({[ "c1" := slowCard ]} : gmap string Flashcard)
                      !! params_id (mkReviewRequest "c1" "u2" (Some 4%Q) None)
                    = Some c ->
                    user c <> user_id (mkReviewRequest "c1" "u2" (Some 4%Q) None)
                    \/ isActive c = false) as Hf.
  { intros c. cbn [params_id user_id]. rewrite lookup_singleton_eq.
    intros [= <-]. left. discriminate. }
  split; [reflexivity|]. split; [exact Hr|]. split; [exact Hf|].
  exact (review_foreign_card (mkReviewRequest "c1" "u2" (Some 4%Q) None) noon
           _ 4%Q eq_refl Hr Hf).
Defined.

(** ** The soft delete *)

Lemma deleteFlashcard_ok (db : gmap string Flashcard) (id usr : string)
  (c : Flashcard) :
  selectOne db id usr = Some c ->
  deleteFlashcard id usr db
  = (inr "Flashcard deleted successfully", <[_id c := set_isActive false c]> db).
Proof.
  intros Hsel. unfold deleteFlashcard, bind, findOne. rewrite Hsel. reflexivity.
Qed.

Lemma deleteFlashcard_not_found (db : gmap string Flashcard) (id usr : string) :
  selectOne db id usr = None ->
  deleteFlashcard id usr db = (inl (Status404 "Flashcard not found"), db).
Proof.
  intros Hsel. unfold deleteFlashcard, bind, findOne. rewrite Hsel. reflexivity.
Qed.

Lemma getFlashcard_not_found (db : gmap string Flashcard) (id usr : string)
  (today : Z) :
  selectOne db id usr = None ->
  getFlashcard id usr today db = (inl (Status404 "Flashcard not found"), db).
Proof.
  intros Hsel. unfold getFlashcard, bind, findOne. rewrite Hsel. reflexivity.
Qed.

Lemma selectOne_inactive (db : gmap string Flashcard) (id usr : string)
  (c : Flashcard) :
  db !! id = Some c -> isActive c = false -> selectOne db id usr = None.
Proof.
  intros Hc Ha. unfold selectOne. rewrite Hc, Ha.
  now rewrite andb_false_r.
Qed.

(** X13.  Deleting a card of a collection keyed by id keeps the document:
    it stays under its key with its [stats] and [reviewData] as they were
    and [isActive] false, and no other key changes. *)
Theorem deleteFlashcard_keeps_document (db : gmap string Flashcard)
  (id usr : string) (c : Flashcard) :
  keyed_by_id db -> selectOne db id usr = Some c ->
  exists db',
    deleteFlashcard id usr db = (inr "Flashcard deleted successfully", db')
    /\ (exists c', db' !! id = Some c' /\ isActive c' = false
                   /\ stats c' = stats c /\ reviewData c' = reviewData c
                   /\ user c' = user c /\ subject c' = subject c)
    /\ (forall k, k <> id -> db' !! k = db !! k)
    /\ keyed_by_id db'.
Proof.
  intros Hkey Hsel. pose proof (selectOne_keyed _ _ _ _ Hkey Hsel) as Hid.
  exists (<[_id c := set_isActive false c]> db).
  split; [apply deleteFlashcard_ok; exact Hsel|].
  rewrite Hid. split; [|split].
  - exists (set_isActive false c). rewrite lookup_insert_eq. repeat split.
  - intros k Hk. now apply lookup_insert_ne.
  - rewrite <- Hid. apply (keyed_by_id_insert db (set_isActive false c) Hkey).
Qed.

Lemma keyed_by_id_singleton (c : Flashcard) :
  keyed_by_id {[ _id c := c ]}.
Proof.
  intros k d. rewrite lookup_singleton. case_decide as E; [|discriminate].
  intros [= <-]. exact E.
Qed.

Lemma deleteFlashcard_keeps_document_witness :
  let db : gmap string Flashcard := {[ "c1" := slowCard ]} in
  keyed_by_id db /\ selectOne db "c1" "u1" = Some slowCard
  /\ exists db',
       deleteFlashcard "c1" "u1" db = (inr "Flashcard deleted successfully", db')
       /\ (exists c', db' !! "c1" = Some c' /\ isActive c' = false
                      /\ stats c' = stats slowCard
                      /\ reviewData c' = reviewData slowCard
                      /\ user c' = user slowCard /\ subject c' = subject slowCard)
       /\ (forall k, k <> "c1" -> db' !! k = db !! k)
       /\ keyed_by_id db'.
Proof.
  cbv zeta.
  assert (keyed_by_id {[ "c1" := slowCard ]}) as Hkey
    by exact (keyed_by_id_singleton slowCard).
  assert (selectOne {[ "c1" := slowCard ]} "c1" "u1" = Some slowCard) as Hsel
    by (apply (selectOne_singleton slowCard); reflexivity).
  split; [exact Hkey|]. split; [exact Hsel|].
  exact (deleteFlashcard_keeps_document _ "c1" "u1" slowCard Hkey Hsel).
Defined.

(** X14.  Once deleted, a card is gone for the routes: reviewing it with
    any body of valid quality, reading it and deleting it again are all
    answered 404, and none of them changes the collection. *)
Theorem deleted_card_is_gone (db db' : gmap string Flashcard) (id usr : string)
  (c : Flashcard) (req : ReviewRequest) (q : Q) (clock : nat -> Z) (today : Z) :
  keyed_by_id db -> selectOne db id usr = Some c ->
  deleteFlashcard id usr db = (inr "Flashcard deleted successfully", db') ->
  params_id req = id -> body_quality req = Some q -> (0 <= q <= 5)%Q ->
  run (review req clock) db' = (Status404 "Flashcard not found", db')
  /\ getFlashcard id (user_id req) today db'
     = (inl (Status404 "Flashcard not found"), db')
  /\ deleteFlashcard id (user_id req) db'
     = (inl (Status404 "Flashcard not found"), db').
Proof.
  intros Hkey Hsel Hdel Hid Hq Hrange.
  pose proof (selectOne_keyed _ _ _ _ Hkey Hsel) as Hcid.
  rewrite (deleteFlashcard_ok db id usr c Hsel) in Hdel.
  injection Hdel as <-. rewrite Hcid.
  assert (selectOne (<[id := set_isActive false c]> db) id (user_id req) = None)
    as Hgone.
  { apply (selectOne_inactive _ _ _ (set_isActive false c));
      [apply lookup_insert_eq | reflexivity]. }
  split; [|split].
  - apply (review_not_found req clock _ q); auto. now rewrite Hid.
  - now apply getFlashcard_not_found.
  - now apply deleteFlashcard_not_found.
Qed.

Lemma deleted_card_is_gone_witness :
  let db : gmap string Flashcard := {[ "c1" := slowCard ]} in
  let db' := <["c1" := set_isActive false slowCard]> db in
  keyed_by_id db /\ selectOne db "c1" "u1" = Some slowCard
  /\ deleteFlashcard "c1" "u1" db = (inr "Flashcard deleted successfully", db')
  /\ (0 <= 4 <= 5)%Q
  /\ run (review instantReview noon) db' = (Status404 "Flashcard not found", db')
  /\ getFlashcard "c1" "u1" 0 db' = (inl (Status404 "Flashcard not found"), db')
  /\ deleteFlashcard "c1" "u1" db' = (inl (Status404 "Flashcard not found"), db').
Proof.
  cbv zeta.
  assert (keyed_by_id {[ "c1" := slowCard ]}) as Hkey
    by exact (keyed_by_id_singleton slowCard).
  assert (selectOne {[ "c1" := slowCard ]} "c1" "u1" = Some slowCard) as Hsel
    by (apply (selectOne_singleton slowCard); reflexivity).
  assert (deleteFlashcard "c1" "u1" {[ "c1" := slowCard ]}
          = (inr "Flashcard deleted successfully",
             <["c1" := set_isActive false slowCard]> {[ "c1" := slowCard ]}))
    as Hdel by exact (deleteFlashcard_ok _ "c1" "u1" slowCard Hsel).
  assert (0 <= 4 <= 5)%Q as Hr by (split; discriminate).
  split; [exact Hkey|]. split; [exact Hsel|]. split; [exact Hdel|].
  split; [exact Hr|].
  exact (deleted_card_is_gone _ _ "c1" "u1" slowCard instantReview 4 noon 0
           Hkey Hsel Hdel eq_refl eq_refl Hr).
Defined.

(** ** Reading back a reviewed card *)

(** X15.  What a review answers is what a later read of the card finds: in
    a collection keyed by id, [GET /card/:id] after a review that went
    through returns the [stats], the [reviewData] and the [successRate] of
    the review's answer. *)
Theorem getFlashcard_after_review (req : ReviewRequest) (clock : nat -> Z)
  (db db' : gmap string Flashcard) (r : ReviewedJson) (today : Z) :
  keyed_by_id db ->
  run (review req clock) db = (Status200 r, db') ->
  exists json,
    getFlashcard (params_id req) (user_id req) today db' = (inr json, db')
    /\ card_id json = res_id r
    /\ card_stats json = res_stats r
    /\ card_reviewData json = res_reviewData r
    /\ card_successRate json = res_successRate r.
Proof.
  intros Hkey Hrun.
  apply review_200 in Hrun as (q & c & Hq & Hrange & Hsel & -> & ->).
  pose proof (selectOne_keyed _ _ _ _ Hkey Hsel) as Hid.
  apply selectOne_Some in Hsel as (Hc & Hu & Ha).
  destruct (reviewedCard_frame c req q clock) as (Hid' & Hu' & _ & Ha').
  assert (selectOne (<[_id c := reviewedCard c req q clock]> db)
            (params_id req) (user_id req)
          = Some (reviewedCard c req q clock)) as Hsel'.
  { apply selectOne_Some. rewrite Hid, lookup_insert_eq.
    repeat split; congruence. }
  eexists. unfold getFlashcard, bind, findOne. rewrite Hsel'.
  split; [reflexivity|]. repeat split.
Qed.

Lemma getFlashcard_after_review_witness :
  let db : gmap string Flashcard := {[ "c1" := slowCard ]} in
  let c' := reviewedCard slowCard instantReview 4 noon in
  keyed_by_id db
  /\ run (review instantReview noon) db
     = (Status200 (reviewedJson c' (noon 2%nat)), <["c1" := c']> db)
  /\ exists json,
       getFlashcard "c1" "u1" 5000 (<["c1" := c']> db)
       = (inr json, <["c1" := c']> db)
       /\ card_id json = "c1"
       /\ card_stats json = stats c'
       /\ card_reviewData json = reviewData c'
       /\ card_successRate json = successRate c'.
Proof.
  cbv zeta.
  assert (keyed_by_id {[ "c1" := slowCard ]}) as Hkey
    by exact (keyed_by_id_singleton slowCard).
  assert (run (review instantReview noon) {[ "c1" := slowCard ]}
          = (Status200 (reviewedJson (reviewedCard slowCard instantReview 4 noon)
                          (noon 2%nat)),
             <["c1" := reviewedCard slowCard instantReview 4 noon]>
               {[ "c1" := slowCard ]})) as Hrun.
  { apply (review_ok instantReview noon _ 4%Q slowCard);
      [reflexivity | split; discriminate |].
    apply (selectOne_singleton slowCard); reflexivity. }
  split; [exact Hkey|]. split; [exact Hrun|].
  exact (getFlashcard_after_review instantReview noon _ _ _ 5000 Hkey Hrun).
Defined.

(** ** The due list *)

Section SortBy.

Context {A : Type}.
Variable key : A -> Z.

Let ordered (a b : A) : Prop := key a <= key b.

Lemma insert_by_Permutation (x : A) (l : list A) : insert_by key x l ≡ₚ x :: l.
Proof.
  induction l as [|y l IH]; cbn; [reflexivity|].
  destruct (key x <=? key y); [reflexivity|].
  rewrite IH. apply Permutation_swap.
Qed.

Lemma sort_by_Permutation (l : list A) : sort_by key l ≡ₚ l.
Proof.
  induction l as [|x l IH]; cbn; [reflexivity|].
  fold (sort_by key l). now rewrite insert_by_Permutation, IH.
Qed.

Lemma insert_by_sorted (x : A) (l : list A) :
  StronglySorted ordered l -> StronglySorted ordered (insert_by key x l).
Proof.
  induction 1 as [|y l Hl IH Hy]; cbn.
  - repeat constructor.
  - destruct (key x <=? key y) eqn:E.
    + apply Z.leb_le in E. constructor; [now constructor|].
      constructor; [exact E|].
      eapply Forall_impl; [exact Hy|]. intros z Hz. unfold ordered in *. lia.
    + apply Z.leb_gt in E. constructor; [exact IH|].
      rewrite insert_by_Permutation. constructor; [unfold ordered; lia | exact Hy].
Qed.

Lemma sort_by_sorted (l : list A) : StronglySorted ordered (sort_by key l).
Proof.
  induction l as [|x l IH]; cbn; [constructor|].
  now apply insert_by_sorted.
Qed.

Lemma sorted_take_drop (n : nat) (l : list A) :
  StronglySorted ordered l ->
  StronglySorted ordered (take n l)
  /\ forall a b, a ∈ take n l -> b ∈ drop n l -> key a <= key b.
Proof.
  intros Hl. rewrite <- (take_drop n l) in Hl.
  apply StronglySorted_app in Hl as (Hcross & Htake & _).
  split; [exact Htake|]. intros a b Ha Hb. now apply Hcross.
Qed.

End SortBy.

Lemma elem_of_documents (db : gmap string Flashcard) (c : Flashcard) :
  c ∈ documents db <-> exists k, db !! k = Some c.
Proof.
  unfold documents. rewrite list_elem_of_fmap. split.
  - intros ([k d] & -> & Hin). apply elem_of_map_to_list in Hin. eauto.
  - intros [k Hk]. exists (k, c). split; [reflexivity|].
    now apply elem_of_map_to_list.
Qed.

Lemma elem_of_List_filter {A : Type} (p : A -> bool) (l : list A) (x : A) :
  x ∈ List.filter p l <-> x ∈ l /\ p x = true.
Proof. rewrite !list_elem_of_In. apply filter_In. Qed.

Lemma dueQuery_true (usr : string) (subjectId : option string) (now : Z)
  (c : Flashcard) :
  dueQuery usr subjectId now c = true <->
  user c = usr /\ isActive c = true /\ isDue c now = true
  /\ (forall s, subjectId = Some s -> subject c = s).
Proof.
  unfold dueQuery, isDue. rewrite !andb_true_iff, bool_decide_eq_true.
  destruct subjectId as [s|].
  - rewrite bool_decide_eq_true. split.
    + intros [[[Hu Ha] Hd] Hs]. repeat split; auto. now intros ? [= <-].
    + intros (Hu & Ha & Hd & Hs). auto.
  - split.
    + intros [[[Hu Ha] Hd] _]. repeat split; auto. discriminate.
    + intros (Hu & Ha & Hd & _). auto.
Qed.

Lemma elem_of_dueFlashcards (db : gmap string Flashcard) (usr : string)
  (subjectId : option string) (now : Z) (c : Flashcard) :
  c ∈ dueFlashcards db usr subjectId now ->
  (exists k, db !! k = Some c) /\ dueQuery usr subjectId now c = true.
Proof.
  unfold dueFlashcards. intros Hin. apply subseteq_take in Hin.
  rewrite sort_by_Permutation in Hin.
  apply elem_of_List_filter in Hin as [Hdoc Hq].
  split; [now apply elem_of_documents | exact Hq].
Qed.

(** X16.  The due list only holds cards of the collection that belong to
    the caller, are active, are due at the time of the request and, when a
    subject is given, are of that subject; it holds 20 cards at most and is
    in ascending order of [nextReview]. *)
Theorem dueFlashcards_sound (db : gmap string Flashcard) (usr : string)
  (subjectId : option string) (now : Z) :
  (forall c, c ∈ dueFlashcards db usr subjectId now ->
     (exists k, db !! k = Some c)
     /\ user c = usr /\ isActive c = true /\ isDue c now = true
     /\ (forall s, subjectId = Some s -> subject c = s))
  /\ (length (dueFlashcards db usr subjectId now) <= 20)%nat
  /\ StronglySorted
       (fun c d => nextReview (reviewData c) <= nextReview (reviewData d))
       (dueFlashcards db usr subjectId now).
Proof.
  split; [|split].
  - intros c Hin. apply elem_of_dueFlashcards in Hin as [Hdoc Hq].
    apply dueQuery_true in Hq. tauto.
  - unfold dueFlashcards. rewrite length_take. lia.
  - unfold dueFlashcards.
    apply (sorted_take_drop (fun c => nextReview (reviewData c)) 20).
    apply sort_by_sorted.
Qed.

(** X17.  The due list misses no urgent card: a card of the collection that
    matches the query is in the list, unless the list is full (20 cards)
    with cards that are all due no later than it. *)
Theorem dueFlashcards_earliest (db : gmap string Flashcard) (usr : string)
  (subjectId : option string) (now : Z) (k : string) (c : Flashcard) :
  db !! k = Some c -> dueQuery usr subjectId now c = true ->
  c ∈ dueFlashcards db usr subjectId now
  \/ (length (dueFlashcards db usr subjectId now) = 20%nat
      /\ forall d, d ∈ dueFlashcards db usr subjectId now ->
                   nextReview (reviewData d) <= nextReview (reviewData c)).
Proof.
  intros Hk Hq. unfold dueFlashcards.
  set (l := sort_by (fun c => nextReview (reviewData c))
              (List.filter (dueQuery usr subjectId now) (documents db))).
  assert (c ∈ l) as Hin.
  { unfold l. rewrite sort_by_Permutation. apply elem_of_List_filter.
    split; [apply elem_of_documents; eauto | exact Hq]. }
  rewrite <- (take_drop 20 l) in Hin. apply elem_of_app in Hin as [Hin | Hin].
  - now left.
  - right. split.
    + apply length_take_le.
      destruct (decide (20 <= length l)%nat) as [|Hshort]; [assumption|].
      rewrite drop_ge in Hin by lia. inversion Hin.
    + intros d Hd.
      destruct (sorted_take_drop (fun c => nextReview (reviewData c)) 20 l
                  (sort_by_sorted _ _)) as [_ Hcross].
      now apply Hcross.
Qed.

Lemma dueFlashcards_earliest_witness :
  let db : gmap string Flashcard := {[ "c1" := slowCard ]} in
  db !! "c1" = Some slowCard
  /\ dueQuery "u1" None 86400000 slowCard = true
  /\ (slowCard ∈ dueFlashcards db "u1" None 86400000
      \/ (length (dueFlashcards db "u1" None 86400000) = 20%nat
          /\ forall d, d ∈ dueFlashcards db "u1" None 86400000 ->
                       nextReview (reviewData d)
                       <= nextReview (reviewData slowCard))).
Proof.
  cbv zeta.
  assert (({[ "c1" := slowCard ]} : gmap string Flashcard) !! "c1"
          = Some slowCard) as Hk by apply lookup_singleton_eq.
  assert (dueQuery "u1" None 86400000 slowCard = true) as Hq by reflexivity.
  split; [exact Hk|]. split; [exact Hq|].
  exact (dueFlashcards_earliest _ "u1" None 86400000 "c1" slowCard Hk Hq).
Defined.

(** X19.  A card that has just been reviewed leaves the due list: in a
    collection keyed by id, after a review of a card with the invariants no
    card of the due list, for any user and subject and at any time within
    24 hours of the review, has the id of the reviewed card. *)
Theorem reviewed_card_leaves_due_list (req : ReviewRequest) (clock : nat -> Z)
  (db db' : gmap string Flashcard) (c : Flashcard) (r : ReviewedJson)
  (usr : string) (subjectId : option string) (now : Z) :
  keyed_by_id db ->
  selectOne db (params_id req) (user_id req) = Some c ->
  card_invariant c ->
  run (review req clock) db = (Status200 r, db') ->
  now < clock 1%nat + 24 * 60 * 60 * 1000 ->
  forall d, d ∈ dueFlashcards db' usr subjectId now -> _id d <> _id c.
Proof.
  intros Hkey Hsel Hinv Hrun Hnow d Hd Hsame.
  apply review_200 in Hrun as (q & c0 & Hq & Hrange & Hsel0 & -> & ->).
  rewrite Hsel in Hsel0. injection Hsel0 as <-.
  apply elem_of_dueFlashcards in Hd as [[k Hk] Hdue].
  pose proof (keyed_by_id_insert db (reviewedCard c req q clock) Hkey) as Hkey'.
  destruct (reviewedCard_frame c req q clock) as (Hid & _).
  rewrite Hid in Hkey'. pose proof (Hkey' k d Hk) as Hkd.
  rewrite <- Hkd, Hsame, lookup_insert_eq in Hk. injection Hk as <-.
  apply dueQuery_true in Hdue as (_ & _ & Hdue & _).
  unfold isDue in Hdue. apply Z.leb_le in Hdue.
  pose proof (nextReview_lower_bound
                (updateResponseTime c (body_responseTime req)) q clock
                (updateResponseTime_invariant c _ Hinv)) as Hnext.
  unfold reviewedCard in Hdue. lia.
Qed.

Lemma reviewed_card_leaves_due_list_witness :
  let db : gmap string Flashcard := {[ "c1" := slowCard ]} in
  let c' := reviewedCard slowCard instantReview 4 noon in
  keyed_by_id db /\ selectOne db "c1" "u1" = Some slowCard
  /\ card_invariant slowCard
  /\ run (review instantReview noon) db
     = (Status200 (reviewedJson c' (noon 2%nat)), <["c1" := c']> db)
  /\ 86400000 < noon 1%nat + 24 * 60 * 60 * 1000
  /\ forall d, d ∈ dueFlashcards (<["c1" := c']> db) "u1" None 86400000 ->
               _id d <> "c1".
Proof.
  cbv zeta.
  assert (keyed_by_id {[ "c1" := slowCard ]}) as Hkey
    by exact (keyed_by_id_singleton slowCard).
  assert (selectOne {[ "c1" := slowCard ]} "c1" "u1" = Some slowCard) as Hsel
    by (apply (selectOne_singleton slowCard); reflexivity).
  assert (card_invariant slowCard) as Hinv.
  { unfold card_invariant; cbn. split; [reflexivity|]. split; [|lia].
    unfold Qle; simpl; lia. }
  assert (run (review instantReview noon) {[ "c1" := slowCard ]}
          = (Status200 (reviewedJson (reviewedCard slowCard instantReview 4 noon)
                          (noon 2%nat)),
             <["c1" := reviewedCard slowCard instantReview 4 noon]>
               {[ "c1" := slowCard ]})) as Hrun.
  { apply (review_ok instantReview noon _ 4%Q slowCard);
      [reflexivity | split; discriminate | exact Hsel]. }
  assert (86400000 < noon 1%nat + 24 * 60 * 60 * 1000) as Hnow by reflexivity.
  split; [exact Hkey|]. split; [exact Hsel|]. split; [exact Hinv|].
  split; [exact Hrun|]. split; [exact Hnow|].
  exact (reviewed_card_leaves_due_list instantReview noon _ _ slowCard _
           "u1" None 86400000 Hkey Hsel Hinv Hrun Hnow).
Defined.

(** X20.  A deleted card never shows in a due list again, however overdue
    it is: after the soft delete no card of any due list has its id. *)
Theorem deleted_card_leaves_due_list (db db' : gmap string Flashcard)
  (id usr : string) (c : Flashcard) (usr' : string)
  (subjectId : option string) (now : Z) :
  keyed_by_id db -> selectOne db id usr = Some c ->
  deleteFlashcard id usr db = (inr "Flashcard deleted successfully", db') ->
  forall d, d ∈ dueFlashcards db' usr' subjectId now -> _id d <> id.
Proof.
  intros Hkey Hsel Hdel d Hd Hsame.
  pose proof (selectOne_keyed _ _ _ _ Hkey Hsel) as Hcid.
  rewrite (deleteFlashcard_ok db id usr c Hsel) in Hdel.
  injection Hdel as <-.
  apply elem_of_dueFlashcards in Hd as [[k Hk] Hdue].
  pose proof (keyed_by_id_insert db (set_isActive false c) Hkey k d Hk) as Hkd.
  cbn [set_isActive _id] in Hk.
  rewrite <- Hkd, Hsame, Hcid, lookup_insert_eq in Hk. injection Hk as <-.
  apply dueQuery_true in Hdue as (_ & Hact & _). discriminate.
Qed.

Lemma deleted_card_leaves_due_list_witness :
  let db : gmap string Flashcard := {[ "c1" := slowCard ]} in
  let db' := <["c1" := set_isActive false slowCard]> db in
  keyed_by_id db /\ selectOne db "c1" "u1" = Some slowCard
  /\ deleteFlashcard "c1" "u1" db = (inr "Flashcard deleted successfully", db')
  /\ forall d, d ∈ dueFlashcards db' "u1" None 86400000 -> _id d <> "c1".
Proof.
  cbv zeta.
  assert (keyed_by_id {[ "c1" := slowCard ]}) as Hkey
    by exact (keyed_by_id_singleton slowCard).
  assert (selectOne {[ "c1" := slowCard ]} "c1" "u1" = Some slowCard) as Hsel
    by (apply (selectOne_singleton slowCard); reflexivity).
  assert (deleteFlashcard "c1" "u1" {[ "c1" := slowCard ]}
          = (inr "Flashcard deleted successfully",
             <["c1" := set_isActive false slowCard]> {[ "c1" := slowCard ]}))
    as Hdel by exact (deleteFlashcard_ok _ "c1" "u1" slowCard Hsel).
  split; [exact Hkey|]. split; [exact Hsel|]. split; [exact Hdel|].
  exact (deleted_card_leaves_due_list _ _ "c1" "u1" slowCard "u1" None 86400000
           Hkey Hsel Hdel).
Defined.

(** * Further properties of the dashboard *)

(** ** Means of percentages *)

Lemma sum_ge (lo : Z) (l : list Z) :
  Forall (fun s => lo <= s) l -> lo * Z.of_nat (length l) <= reduce_sum l.
Proof.
  induction 1 as [|s l Hs _ IH]; [unfold reduce_sum; cbn; lia|].
  rewrite sum_cons. cbn [length]. lia.
Qed.

Lemma sum_le (hi : Z) (l : list Z) :
  Forall (fun s => s <= hi) l -> reduce_sum l <= hi * Z.of_nat (length l).
Proof.
  induction 1 as [|s l Hs _ IH]; [unfold reduce_sum; cbn; lia|].
  rewrite sum_cons. cbn [length]. lia.
Qed.

Section Mean.

Variable l : list Z.
Hypothesis Hne : l <> [].

Let mean : Z :=
  JS.Math_round (inject_Z (reduce_sum l) / inject_Z (Z.of_nat (length l)))%Q.

Lemma mean_denominator : (0 < inject_Z (Z.of_nat (length l)))%Q.
Proof.
  change 0%Q with (inject_Z 0). rewrite <- Zlt_Qlt.
  destruct l; [congruence | cbn; lia].
Qed.

Lemma mean_ge (lo : Z) : Forall (fun s => lo <= s) l -> lo <= mean.
Proof.
  intros Hall. apply js_Math_round_ge.
  apply Qle_shift_div_l; [exact mean_denominator|].
  rewrite <- inject_Z_mult, <- Zle_Qle. now apply sum_ge.
Qed.

Lemma mean_le (hi : Z) : Forall (fun s => s <= hi) l -> mean <= hi.
Proof.
  intros Hall.
  apply Z.le_trans with (JS.Math_round (inject_Z hi));
    [|rewrite js_Math_round_Z; lia].
  apply js_Math_round_mono. apply Qle_shift_div_r; [exact mean_denominator|].
  rewrite <- inject_Z_mult, <- Zle_Qle. now apply sum_le.
Qed.

End Mean.

Lemma length_List_filter_le {A : Type} (p : A -> bool) (l : list A) :
  (length (List.filter p l) <= length l)%nat.
Proof.
  induction l as [|x l IH]; cbn; [lia|]. destruct (p x); cbn; lia.
Qed.

(** X21.  The flashcard statistics of the analytics are consistent: the
    number of reviewed cards is between 0 and the total, and when the right
    answers of every card are between 0 and its number of reviews the
    average success rate is a percentage between 0 and 100. *)
Theorem flashcardStats_bounds (flashcards : list Flashcard) :
  Forall (fun c => 0 <= correctAnswers (stats c) <= timesReviewed (stats c))
    flashcards ->
  0 <= reviewed (flashcardStats flashcards) <= total (flashcardStats flashcards)
  /\ total (flashcardStats flashcards) = Z.of_nat (length flashcards)
  /\ 0 <= averageSuccessRate (flashcardStats flashcards) <= 100.
Proof.
  intros Hall. split; [|split].
  - unfold flashcardStats. cbn [reviewed total].
    pose proof (length_filter (fun card => 0 < timesReviewed (stats card))
                  flashcards). lia.
  - reflexivity.
  - destruct flashcards as [|c l];
      [change (averageSuccessRate (flashcardStats [])) with 0; lia|].
    rewrite averageSuccessRate_unfold by discriminate.
    rewrite <- (length_map successRate).
    assert (Forall (fun s => 0 <= s <= 100) (map successRate (c :: l))) as Hrates.
    { apply Forall_map. eapply Forall_impl; [exact Hall|].
      intros d Hd. cbv beta in *. unfold successRate.
      destruct (timesReviewed (stats d) =? 0) eqn:E; [lia|].
      apply Z.eqb_neq in E. apply percent_bounds; lia. }
    split.
    + apply mean_ge; [discriminate|].
      eapply Forall_impl; [exact Hrates|]. cbv beta. lia.
    + apply mean_le; [discriminate|].
      eapply Forall_impl; [exact Hrates|]. cbv beta. lia.
Qed.

Lemma flashcardStats_bounds_witness :
  Forall (fun c => 0 <= correctAnswers (stats c) <= timesReviewed (stats c))
    [knownCard; unseenCard]
  /\ 0 <= reviewed (flashcardStats [knownCard; unseenCard])
     <= total (flashcardStats [knownCard; unseenCard])
  /\ total (flashcardStats [knownCard; unseenCard]) = 2
  /\ 0 <= averageSuccessRate (flashcardStats [knownCard; unseenCard]) <= 100.
Proof.
  assert (Forall (fun c => 0 <= correctAnswers (stats c) <= timesReviewed (stats c))
            [knownCard; unseenCard]) as H
    by (repeat constructor; cbn; lia).
  split; [exact H|].
  exact (flashcardStats_bounds [knownCard; unseenCard] H).
Defined.

(** ** Quiz scores *)

Lemma fold_max2_Finite (l : list Z) (a : Z) :
  fold_left max2 l (Finite a) = Finite (fold_left Z.max l a).
Proof. revert a. induction l as [|x l IH]; intros a; cbn; [reflexivity | apply IH]. Qed.

Lemma fold_max_spec (l : list Z) (a : Z) :
  (fold_left Z.max l a = a \/ fold_left Z.max l a ∈ l)
  /\ a <= fold_left Z.max l a
  /\ forall s, s ∈ l -> s <= fold_left Z.max l a.
Proof.
  revert a. induction l as [|x l IH]; intros a; cbn.
  - split; [now left|]. split; [lia|]. intros s Hs. inversion Hs.
  - destruct (IH (Z.max a x)) as (Hin & Hge & Hub). split; [|split].
    + destruct Hin as [-> | Hin].
      * destruct (Z.max_spec a x) as [[_ ->] | [_ ->]];
          [right; constructor | now left].
      * right. now constructor.
    + lia.
    + intros s Hs. apply elem_of_cons in Hs as [-> | Hs]; [lia | auto].
Qed.

Lemma Math_max_nonempty (l : list Z) :
  l <> [] ->
  exists m, Math_max l = Finite m /\ m ∈ l /\ forall s, s ∈ l -> s <= m.
Proof.
  destruct l as [|x l]; [congruence|]. intros _.
  unfold Math_max. cbn [fold_left max2]. rewrite fold_max2_Finite.
  destruct (fold_max_spec l x) as (Hin & Hge & Hub).
  eexists. split; [reflexivity|]. split.
  - destruct Hin as [-> | Hin]; [constructor | now constructor].
  - intros s Hs. apply elem_of_cons in Hs as [-> | Hs]; [lia | auto].
Qed.

Lemma quizStats_scored (quizzes : list Quiz.Doc) :
  allScores quizzes <> [] ->
  averageScore (quizStats quizzes)
  = JS.Math_round (inject_Z (reduce_sum (allScores quizzes))
                   / inject_Z (Z.of_nat (length (allScores quizzes))))%Q
  /\ bestScore (quizStats quizzes) = Math_max (allScores quizzes).
Proof.
  intros Hne. unfold quizStats.
  assert ((0 <? Z.of_nat (length quizzes)) = true) as ->.
  { apply Z.ltb_lt. destruct quizzes; [now cbn in Hne | cbn; lia]. }
  assert ((0 <? Z.of_nat (length (allScores quizzes))) = true) as ->.
  { apply Z.ltb_lt. destruct (allScores quizzes); [congruence | cbn; lia]. }
  split; reflexivity.
Qed.

(** X22.  When some attempt was completed, the best score of the analytics
    is the percentage of one of the completed attempts and no completed
    attempt has a higher one; the average score is at most the best score
    and at least any bound that all these percentages respect. *)
Theorem quizStats_average_le_best (quizzes : list Quiz.Doc) :
  allScores quizzes <> [] ->
  exists best,
    bestScore (quizStats quizzes) = Finite best
    /\ best ∈ allScores quizzes
    /\ (forall s, s ∈ allScores quizzes -> s <= best)
    /\ averageScore (quizStats quizzes) <= best
    /\ (forall lo, (forall s, s ∈ allScores quizzes -> lo <= s) ->
                   lo <= averageScore (quizStats quizzes)).
Proof.
  intros Hne. destruct (quizStats_scored quizzes Hne) as [Havg Hbest].
  destruct (Math_max_nonempty _ Hne) as (best & Hmax & Hin & Hub).
  exists best. rewrite Hbest, Havg. split; [exact Hmax|].
  split; [exact Hin|]. split; [exact Hub|]. split.
  - apply mean_le; [exact Hne|]. now apply Forall_forall.
  - intros lo Hlo. apply mean_ge; [exact Hne|]. now apply Forall_forall.
Qed.

Lemma quizStats_average_le_best_witness :
  allScores twoAttempts <> []
  /\ bestScore (quizStats twoAttempts) = Finite 75
  /\ averageScore (quizStats twoAttempts) = 58
  /\ averageScore (quizStats twoAttempts) <= 75.
Proof.
  assert (allScores twoAttempts <> []) as Hne by discriminate.
  destruct (quizStats_average_le_best twoAttempts Hne)
    as (best & Hbest & _ & _ & Hle & _).
  split; [exact Hne|]. split; [reflexivity|]. split; [reflexivity|].
  assert (best = 75) as E
    by (change (bestScore (quizStats twoAttempts)) with (Finite 75) in Hbest;
        congruence).
  rewrite E in Hle. exact Hle.
Defined.

(** X23.  Without a completed attempt (no quiz, no attempt, or none
    completed) the analytics report an average score and a best score of 0;
    in no case is the best score the [-Infinity] of an empty [Math.max]. *)
Theorem quizStats_never_negInfinity (quizzes : list Quiz.Doc) :
  bestScore (quizStats quizzes) <> NegInfinity
  /\ (allScores quizzes = [] ->
      averageScore (quizStats quizzes) = 0
      /\ bestScore (quizStats quizzes) = Finite 0).
Proof.
  split.
  - destruct (allScores quizzes) as [|s l] eqn:E.
    + unfold quizStats. rewrite E.
      destruct (0 <? Z.of_nat (length quizzes)); discriminate.
    + assert (allScores quizzes <> []) as Hne by congruence.
      destruct (quizStats_scored quizzes Hne) as [_ ->].
      destruct (Math_max_nonempty _ Hne) as (m & -> & _). discriminate.
  - intros E. unfold quizStats. rewrite E.
    destruct (0 <? Z.of_nat (length quizzes)); split; reflexivity.
Qed.

(** ** Study plans *)

Lemma task_percent_bounds (tasks : list StudyPlan.DailyTask) :
  tasks <> [] ->
  let totalTasks := Z.of_nat (length tasks) in
  let completedTasks := Z.of_nat (length (List.filter StudyPlan.completed tasks)) in
  0 <= completedTasks <= totalTasks
  /\ 0 <= JS.Math_round (inject_Z completedTasks / inject_Z totalTasks * 100)%Q
     <= 100.
Proof.
  intros Hne. cbv zeta.
  pose proof (length_List_filter_le StudyPlan.completed tasks) as Hle.
  assert (0 < length tasks)%nat by (destruct tasks; [congruence | cbn; lia]).
  split; [lia|]. apply percent_bounds; lia.
Qed.

(** X24.  Saving a study plan that has tasks brings its progress up to
    date: the total is the number of tasks, the completed count is the
    number of tasks marked completed, between 0 and the total, and the
    completion percentage lies between 0 and 100. *)
Theorem preSave_progress (this : StudyPlan.Doc) :
  StudyPlan.dailyTasks this <> [] ->
  let saved := StudyPlan.preSave this in
  StudyPlan.dailyTasks saved = StudyPlan.dailyTasks this
  /\ StudyPlan.totalTasks (StudyPlan.progress saved)
     = Z.of_nat (length (StudyPlan.dailyTasks this))
  /\ StudyPlan.completedTasks (StudyPlan.progress saved)
     = Z.of_nat (length (List.filter StudyPlan.completed (StudyPlan.dailyTasks this)))
  /\ 0 <= StudyPlan.completedTasks (StudyPlan.progress saved)
     <= StudyPlan.totalTasks (StudyPlan.progress saved)
  /\ 0 <= StudyPlan.completionPercentage (StudyPlan.progress saved) <= 100.
Proof.
  intros Hne. cbv zeta. unfold StudyPlan.preSave.
  assert ((0 <? Z.of_nat (length (StudyPlan.dailyTasks this))) = true) as ->.
  { apply Z.ltb_lt. destruct (StudyPlan.dailyTasks this); [congruence | cbn; lia]. }
  cbn [StudyPlan.dailyTasks StudyPlan.progress StudyPlan.totalTasks
       StudyPlan.completedTasks StudyPlan.completionPercentage].
  destruct (task_percent_bounds _ Hne) as [Hc Hp].
  repeat split; try apply Hc; apply Hp.
Qed.

Lemma preSave_progress_witness :
  StudyPlan.dailyTasks examplePlan <> []
  /\ StudyPlan.totalTasks (StudyPlan.progress (markedPlan examplePlan "t1" 1000)) = 2
  /\ StudyPlan.completedTasks (StudyPlan.progress (markedPlan examplePlan "t1" 1000)) = 1
  /\ StudyPlan.completionPercentage
       (StudyPlan.progress (markedPlan examplePlan "t1" 1000)) = 50
  /\ 0 <= StudyPlan.completionPercentage
            (StudyPlan.progress (StudyPlan.preSave examplePlan)) <= 100.
Proof.
  assert (StudyPlan.dailyTasks examplePlan <> []) as Hne by discriminate.
  split; [exact Hne|]. split; [reflexivity|]. split; [reflexivity|].
  split; [reflexivity|].
  exact (proj2 (proj2 (proj2 (proj2 (preSave_progress examplePlan Hne))))).
Defined.

(** X25.  The upcoming tasks of a plan are exactly its tasks that are not
    completed and are dated from now to [days] days from now, in ascending
    order of date. *)
Theorem getUpcomingTasks_spec (this : StudyPlan.Doc) (days today : Z) :
  (forall task,
     task ∈ StudyPlan.getUpcomingTasks this days today
     <-> task ∈ StudyPlan.dailyTasks this
         /\ StudyPlan.completed task = false
         /\ today <= StudyPlan.date task <= today + days * 24 * 60 * 60 * 1000)
  /\ StronglySorted (fun a b => StudyPlan.date a <= StudyPlan.date b)
       (StudyPlan.getUpcomingTasks this days today)
  /\ (length (StudyPlan.getUpcomingTasks this days today)
      <= length (StudyPlan.dailyTasks this))%nat.
Proof.
  unfold StudyPlan.getUpcomingTasks. split; [|split].
  - intros task. rewrite sort_by_Permutation, elem_of_List_filter.
    cbv zeta. rewrite !andb_true_iff, negb_true_iff, !Z.leb_le. tauto.
  - apply sort_by_sorted.
  - rewrite sort_by_Permutation. apply length_List_filter_le.
Qed.

(** ** Marking a topic *)

Lemma Math_floor_div (a b : Z) :
  0 < b -> Math_floor (inject_Z a / inject_Z b)%Q = a / b.
Proof.
  intros Hb. destruct b as [|p|p]; try lia.
  unfold Math_floor, Qdiv, Qinv, inject_Z. cbn.
  now rewrite Z.mul_1_r.
Qed.

Lemma updateStreak_same_day (streak today lastActive : Z) :
  0 <= today - lastActive < 24 * 60 * 60 * 1000 ->
  updateStreak streak today lastActive = streak.
Proof.
  intros Hdiff. unfold updateStreak.
  rewrite Math_floor_div by lia.
  change (1000 * 60 * 60 * 24) with 86400000.
  rewrite Z.div_small by lia. reflexivity.
Qed.

Lemma truthy_string_Some (v : option string) :
  truthy_string v = true <-> exists s, v = Some s /\ s <> "".
Proof.
  destruct v as [s|]; cbn.
  - rewrite negb_true_iff, bool_decide_eq_false. split.
    + intros H. exists s. auto.
    + intros (s' & [= <-] & H). exact H.
  - split; [discriminate | intros (s & [=] & _)].
Qed.

Section MarkTopic.

Variables (topicId studyPlanId : option string) (usr : string).
Variable clock : nat -> Z.
Variable db : Db.

Lemma markTopic_ok (tid pid : string) (plan : StudyPlan.Doc)
  (task : StudyPlan.DailyTask) (user : User.Doc) :
  topicId = Some tid -> tid <> "" -> studyPlanId = Some pid -> pid <> "" ->
  selectPlan db pid usr = Some plan ->
  StudyPlan.id (StudyPlan.dailyTasks plan) tid = Some task ->
  users db !! usr = Some user ->
  markTopic topicId studyPlanId usr clock db
  = (Mark200 (mkMarkedTask (StudyPlan.task_id task) (StudyPlan.topic task)
                true (Some (clock 0%nat)))
       (User.streak (User.studyStats (markedUser user clock))),
     mkDb (<[StudyPlan._id plan := markedPlan plan tid (clock 0%nat)]>
             (studyPlans db))
       (<[User._id user := markedUser user clock]> (users db))).
Proof.
  intros -> Ht -> Hp Hplan Htask Huser. unfold markTopic.
  assert (truthy_string (Some tid) = true) as ->
    by (apply truthy_string_Some; eauto).
  assert (truthy_string (Some pid) = true) as ->
    by (apply truthy_string_Some; eauto).
  cbn [negb orb]. change (default "" (Some tid)) with tid.
  change (default "" (Some pid)) with pid. cbv zeta. rewrite Hplan, Htask.
  cbn [users]. rewrite Huser.
  assert (StudyPlan._id (markedPlan plan tid (clock 0%nat)) = StudyPlan._id plan)
    as Hid.
  { unfold markedPlan, StudyPlan.preSave. destruct (0 <? _); reflexivity. }
  unfold markedPlan in *. rewrite Hid. reflexivity.
Qed.

Lemma markTopic_200 (marked : MarkedTask) (newStreak : Z) (db' : Db) :
  markTopic topicId studyPlanId usr clock db = (Mark200 marked newStreak, db') ->
  exists tid pid plan task user,
    topicId = Some tid /\ tid <> "" /\ studyPlanId = Some pid /\ pid <> ""
    /\ selectPlan db pid usr = Some plan
    /\ StudyPlan.id (StudyPlan.dailyTasks plan) tid = Some task
    /\ users db !! usr = Some user.
Proof.
  unfold markTopic.
  destruct (truthy_string topicId) eqn:Et; [|discriminate].
  destruct (truthy_string studyPlanId) eqn:Ep; [|discriminate].
  apply truthy_string_Some in Et as (tid & -> & Ht).
  apply truthy_string_Some in Ep as (pid & -> & Hp).
  cbn [negb orb]. change (default "" (Some tid)) with tid.
  change (default "" (Some pid)) with pid. cbv zeta.
  destruct (selectPlan db pid usr) as [plan|] eqn:Hplan; [|discriminate].
  destruct (StudyPlan.id (StudyPlan.dailyTasks plan) tid) as [task|] eqn:Htask;
    [|discriminate].
  cbn [users].
  destruct (users db !! usr) as [user|] eqn:Huser; [|discriminate].
  intros _. exists tid, pid, plan, task, user. auto 10.
Qed.

End MarkTopic.

(** X26.  Marking a topic never moves the streak: the route overwrites
    [lastActive] with the current time before it compares it with the
    current time, so whenever its two clock readings are less than a day
    apart the streak it answers and stores is the streak the user had. *)
Theorem markTopic_keeps_streak (topicId studyPlanId : option string)
  (usr : string) (clock : nat -> Z) (db db' : Db) (user : User.Doc)
  (marked : MarkedTask) (newStreak : Z) :
  users db !! usr = Some user ->
  0 <= clock 2%nat - clock 1%nat < 24 * 60 * 60 * 1000 ->
  markTopic topicId studyPlanId usr clock db = (Mark200 marked newStreak, db') ->
  newStreak = User.streak (User.studyStats user)
  /\ exists user',
       users db' !! User._id user = Some user'
       /\ User.streak (User.studyStats user') = User.streak (User.studyStats user)
       /\ User.completedTasks (User.studyStats user')
          = User.completedTasks (User.studyStats user) + 1
       /\ User.lastActive (User.studyStats user') = clock 1%nat.
Proof.
  intros Huser Hclock Hrun.
  pose proof Hrun as Hparts.
  apply markTopic_200 in Hparts
    as (tid & pid & plan & task & user0 & Ht & Htne & Hp & Hpne & Hplan & Htask & Hu0).
  rewrite Huser in Hu0. injection Hu0 as <-.
  rewrite (markTopic_ok topicId studyPlanId usr clock db tid pid plan task user)
    in Hrun by assumption.
  injection Hrun as _ <- <-.
  cbn [markedUser User.studyStats User.streak User.completedTasks
       User.lastActive User._id users].
  rewrite updateStreak_same_day by assumption.
  split; [reflexivity|]. eexists. split; [apply lookup_insert_eq|].
  cbn. rewrite updateStreak_same_day by assumption. auto.
Qed.

Lemma markTopic_keeps_streak_witness :
  users exampleDb !! "u1" = Some exampleUser
  /\ 0 <= noon 2%nat - noon 1%nat < 24 * 60 * 60 * 1000
  /\ markTopic (Some "t1") (Some "p1") "u1" noon exampleDb
     = (Mark200 (mkMarkedTask "t1" "Sets" true (Some 1000)) 3,
        mkDb (<["p1" := markedPlan examplePlan "t1" 1000]> (studyPlans exampleDb))
          (<["u1" := markedUser exampleUser noon]> (users exampleDb)))
  /\ 3 = User.streak (User.studyStats exampleUser).
Proof.
  assert (users exampleDb !! "u1" = Some exampleUser) as Hu
    by apply lookup_singleton_eq.
  assert (0 <= noon 2%nat - noon 1%nat < 24 * 60 * 60 * 1000) as Hc
    by (unfold noon; lia).
  assert (markTopic (Some "t1") (Some "p1") "u1" noon exampleDb
          = (Mark200 (mkMarkedTask "t1" "Sets" true (Some 1000)) 3,
             mkDb (<["p1" := markedPlan examplePlan "t1" 1000]>
                     (studyPlans exampleDb))
               (<["u1" := markedUser exampleUser noon]> (users exampleDb))))
    as Hrun.
  { apply (markTopic_ok (Some "t1") (Some "p1") "u1" noon exampleDb
             "t1" "p1" examplePlan
             (StudyPlan.mkDailyTask "t1" 90000000 "Sets" false None) exampleUser);
      try reflexivity; discriminate. }
  split; [exact Hu|]. split; [exact Hc|]. split; [exact Hrun|].
  exact (proj1 (markTopic_keeps_streak _ _ _ _ _ _ _ _ _ Hu Hc Hrun)).
Defined.

(** X27.  Of the answers of [PATCH /mark-topic], 400 and 404 leave both
    collections as they were; 500 only comes when the caller has no user
    document, and then the users are untouched; 200 only comes when the
    caller has one. *)
Theorem markTopic_answers (topicId studyPlanId : option string) (usr : string)
  (clock : nat -> Z) (db db' : Db) (r : MarkResponse) :
  markTopic topicId studyPlanId usr clock db = (r, db') ->
  match r with
  | Mark400 _ | Mark404 _ => db' = db
  | Mark500 _ => users db !! usr = None /\ users db' = users db
  | Mark200 _ _ => is_Some (users db !! usr)
  end.
Proof.
  unfold markTopic.
  destruct (negb (truthy_string topicId) || negb (truthy_string studyPlanId));
    [intros [= <- <-]; reflexivity|].
  cbv zeta.
  destruct (selectPlan db _ usr) as [plan|]; [|intros [= <- <-]; reflexivity].
  destruct (StudyPlan.id _ _) as [task|]; [|intros [= <- <-]; reflexivity].
  cbn [users].
  destruct (users db !! usr) as [user|] eqn:Hu; intros [= <- <-].
  - eauto.
  - split; reflexivity.
Qed.

Lemma markTopic_answers_witness :
  markTopic (Some "t9") (Some "p1") "u1" noon exampleDb
  = (Mark404 "Task not found", exampleDb)
  /\ exampleDb = exampleDb.
Proof.
  assert (markTopic (Some "t9") (Some "p1") "u1" noon exampleDb
          = (Mark404 "Task not found", exampleDb)) as Hrun by reflexivity.
  split; [exact Hrun|].
  exact (markTopic_answers _ _ _ _ _ _ _ Hrun).
Defined.

(** ** Marking a topic again *)

Section UpdateId.

Variable topicId : string.

Lemma update_id_length (f : StudyPlan.DailyTask -> StudyPlan.DailyTask)
  (tasks : list StudyPlan.DailyTask) :
  length (StudyPlan.update_id f tasks topicId) = length tasks.
Proof.
  induction tasks as [|task tasks IH]; cbn; [reflexivity|].
  destruct (bool_decide _); cbn; congruence.
Qed.

Lemma update_id_nonempty (f : StudyPlan.DailyTask -> StudyPlan.DailyTask)
  (tasks : list StudyPlan.DailyTask) (task : StudyPlan.DailyTask) :
  StudyPlan.id tasks topicId = Some task ->
  StudyPlan.update_id f tasks topicId <> [].
Proof.
  destruct tasks as [|x tasks]; [discriminate|]. cbn.
  destruct (bool_decide _); discriminate.
Qed.

Lemma id_update_id (now : Z) (tasks : list StudyPlan.DailyTask)
  (task : StudyPlan.DailyTask) :
  StudyPlan.id tasks topicId = Some task ->
  StudyPlan.id (StudyPlan.update_id (StudyPlan.complete now) tasks topicId) topicId
  = Some (StudyPlan.complete now task).
Proof.
  induction tasks as [|x tasks IH]; cbn; [discriminate|].
  destruct (bool_decide (StudyPlan.task_id x = topicId)) eqn:E; cbn.
  - intros [= <-]. now rewrite E.
  - rewrite E. exact IH.
Qed.

Lemma update_id_again (now now' : Z) (tasks : list StudyPlan.DailyTask) :
  StudyPlan.update_id (StudyPlan.complete now')
    (StudyPlan.update_id (StudyPlan.complete now) tasks topicId) topicId
  = StudyPlan.update_id (StudyPlan.complete now') tasks topicId.
Proof.
  induction tasks as [|x tasks IH]; cbn; [reflexivity|].
  destruct (bool_decide (StudyPlan.task_id x = topicId)) eqn:E; cbn;
    rewrite E; [reflexivity | now rewrite IH].
Qed.

Lemma update_id_completed_count (now now' : Z) (tasks : list StudyPlan.DailyTask) :
  length (List.filter StudyPlan.completed
            (StudyPlan.update_id (StudyPlan.complete now') tasks topicId))
  = length (List.filter StudyPlan.completed
              (StudyPlan.update_id (StudyPlan.complete now) tasks topicId)).
Proof.
  induction tasks as [|x tasks IH]; cbn; [reflexivity|].
  destruct (bool_decide _); cbn; [reflexivity|].
  destruct (StudyPlan.completed x); cbn; congruence.
Qed.

Lemma update_id_marks (now : Z) (tasks : list StudyPlan.DailyTask)
  (task : StudyPlan.DailyTask) :
  NoDup (map StudyPlan.task_id tasks) ->
  task ∈ StudyPlan.update_id (StudyPlan.complete now) tasks topicId ->
  StudyPlan.task_id task = topicId ->
  StudyPlan.completed task = true.
Proof.
  induction tasks as [|x tasks IH]; cbn; [intros _ H; inversion H|].
  intros Hnd Hin Hid. apply NoDup_cons in Hnd as [Hx Hnd].
  destruct (bool_decide (StudyPlan.task_id x = topicId)) eqn:E.
  - apply bool_decide_eq_true in E.
    apply elem_of_cons in Hin as [-> | Hin]; [reflexivity|].
    exfalso. apply Hx. rewrite E, <- Hid.
    apply list_elem_of_In, in_map, list_elem_of_In, Hin.
  - apply bool_decide_eq_false in E.
    apply elem_of_cons in Hin as [-> | Hin]; [contradiction | auto].
Qed.

End UpdateId.

Lemma markedPlan_frame (plan : StudyPlan.Doc) (tid : string) (now : Z)
  (task : StudyPlan.DailyTask) :
  StudyPlan.id (StudyPlan.dailyTasks plan) tid = Some task ->
  StudyPlan._id (markedPlan plan tid now) = StudyPlan._id plan
  /\ StudyPlan.user (markedPlan plan tid now) = StudyPlan.user plan
  /\ StudyPlan.isActive (markedPlan plan tid now) = StudyPlan.isActive plan
  /\ StudyPlan.dailyTasks (markedPlan plan tid now)
     = StudyPlan.update_id (StudyPlan.complete now) (StudyPlan.dailyTasks plan) tid
  /\ StudyPlan.progress (markedPlan plan tid now)
     = StudyPlan.mkProgress (Z.of_nat (length (StudyPlan.dailyTasks plan)))
         (Z.of_nat (length (List.filter StudyPlan.completed
                              (StudyPlan.update_id (StudyPlan.complete now)
                                 (StudyPlan.dailyTasks plan) tid))))
         (JS.Math_round
            (inject_Z (Z.of_nat (length (List.filter StudyPlan.completed
                                           (StudyPlan.update_id (StudyPlan.complete now)
                                              (StudyPlan.dailyTasks plan) tid))))
             / inject_Z (Z.of_nat (length (StudyPlan.dailyTasks plan))) * 100)%Q).
Proof.
  intros Htask. unfold markedPlan, StudyPlan.preSave.
  cbn [StudyPlan.dailyTasks].
  pose proof (update_id_nonempty tid (StudyPlan.complete now) _ _ Htask) as Hne.
  assert ((0 <? Z.of_nat (length (StudyPlan.update_id (StudyPlan.complete now)
                                    (StudyPlan.dailyTasks plan) tid))) = true)
    as ->.
  { apply Z.ltb_lt. destruct (StudyPlan.update_id _ _ _); [congruence | cbn; lia]. }
  cbn. rewrite !update_id_length. auto.
Qed.

(** X28.  Marking the same topic a second time counts it again for the
    user and not for the plan: after two calls for one task, in collections
    keyed by id, the user's [completedTasks] has grown by 2 while the plan's
    progress is what the first call left. *)
Theorem markTopic_twice (tid pid usr : string) (clock clock' : nat -> Z)
  (db : Db) (plan : StudyPlan.Doc) (task : StudyPlan.DailyTask)
  (user : User.Doc) :
  tid <> "" -> pid <> "" ->
  selectPlan db pid usr = Some plan -> StudyPlan._id plan = pid ->
  StudyPlan.id (StudyPlan.dailyTasks plan) tid = Some task ->
  users db !! usr = Some user -> User._id user = usr ->
  exists m1 s1 db1 m2 s2 db2 plan1 plan2 user2,
    markTopic (Some tid) (Some pid) usr clock db = (Mark200 m1 s1, db1)
    /\ markTopic (Some tid) (Some pid) usr clock' db1 = (Mark200 m2 s2, db2)
    /\ studyPlans db1 !! pid = Some plan1
    /\ studyPlans db2 !! pid = Some plan2
    /\ StudyPlan.progress plan2 = StudyPlan.progress plan1
    /\ users db2 !! usr = Some user2
    /\ User.completedTasks (User.studyStats user2)
       = User.completedTasks (User.studyStats user) + 2.
Proof.
  intros Ht Hp Hplan Hpid Htask Huser Huid.
  pose proof (markTopic_ok (Some tid) (Some pid) usr clock db tid pid plan task
                user eq_refl Ht eq_refl Hp Hplan Htask Huser) as Hrun1.
  rewrite Hpid, Huid in Hrun1.
  set (plan1 := markedPlan plan tid (clock 0%nat)) in *.
  set (user1 := markedUser user clock) in *.
  set (db1 := mkDb (<[pid := plan1]> (studyPlans db)) (<[usr := user1]> (users db)))
    in *.
  destruct (markedPlan_frame plan tid (clock 0%nat) task Htask)
    as (Hid1 & Hu1 & Ha1 & Htasks1 & Hprog1).
  fold plan1 in Hid1, Hu1, Ha1, Htasks1, Hprog1.
  assert (selectPlan db1 pid usr = Some plan1) as Hplan1.
  { unfold selectPlan in *. cbn [studyPlans db1]. rewrite lookup_insert_eq.
    destruct (studyPlans db !! pid) as [p|]; [|discriminate].
    destruct (bool_decide (StudyPlan.user p = usr) && StudyPlan.isActive p) eqn:E;
      [|discriminate].
    injection Hplan as ->. now rewrite Hu1, Ha1, E. }
  assert (StudyPlan.id (StudyPlan.dailyTasks plan1) tid
          = Some (StudyPlan.complete (clock 0%nat) task)) as Htask1
    by (rewrite Htasks1; now apply id_update_id).
  assert (users db1 !! usr = Some user1) as Huser1
    by (cbn [users db1]; apply lookup_insert_eq).
  pose proof (markTopic_ok (Some tid) (Some pid) usr clock' db1 tid pid plan1 _
                user1 eq_refl Ht eq_refl Hp Hplan1 Htask1 Huser1) as Hrun2.
  rewrite Hid1, Hpid in Hrun2. cbn [User._id user1 markedUser] in Hrun2.
  rewrite Huid in Hrun2.
  do 9 eexists. split; [exact Hrun1|]. split; [exact Hrun2|].
  cbn [studyPlans users db1]. rewrite !lookup_insert_eq.
  split; [reflexivity|]. split; [reflexivity|]. split; [|split; [reflexivity|]].
  - destruct (markedPlan_frame plan1 tid (clock' 0%nat) _ Htask1)
      as (_ & _ & _ & _ & ->).
    rewrite Hprog1, Htasks1, update_id_again, update_id_length.
    now rewrite (update_id_completed_count tid (clock 0%nat) (clock' 0%nat)).
  - cbn. lia.
Qed.

Lemma markTopic_twice_witness :
  "t1" <> "" /\ "p1" <> ""
  /\ selectPlan exampleDb "p1" "u1" = Some examplePlan
  /\ users exampleDb !! "u1" = Some exampleUser
  /\ exists m1 s1 db1 m2 s2 db2 plan1 plan2 user2,
       markTopic (Some "t1") (Some "p1") "u1" noon exampleDb = (Mark200 m1 s1, db1)
       /\ markTopic (Some "t1") (Some "p1") "u1" noon db1 = (Mark200 m2 s2, db2)
       /\ studyPlans db1 !! "p1" = Some plan1
       /\ studyPlans db2 !! "p1" = Some plan2
       /\ StudyPlan.progress plan2 = StudyPlan.progress plan1
       /\ users db2 !! "u1" = Some user2
       /\ User.completedTasks (User.studyStats user2)
          = User.completedTasks (User.studyStats exampleUser) + 2.
Proof.
  assert ("t1" <> "") as Ht by discriminate.
  assert ("p1" <> "") as Hp by discriminate.
  assert (selectPlan exampleDb "p1" "u1" = Some examplePlan) as Hplan
    by reflexivity.
  assert (users exampleDb !! "u1" = Some exampleUser) as Hu
    by apply lookup_singleton_eq.
  split; [exact Ht|]. split; [exact Hp|]. split; [exact Hplan|].
  split; [exact Hu|].
  exact (markTopic_twice "t1" "p1" "u1" noon noon exampleDb examplePlan
           (StudyPlan.mkDailyTask "t1" 90000000 "Sets" false None) exampleUser
           Ht Hp Hplan eq_refl eq_refl Hu eq_refl).
Defined.

(** X29.  A topic marked complete leaves the upcoming tasks: when the ids of
    the tasks of the plan are distinct, no task with the marked id is among
    the upcoming tasks of the plan the route stored, for any window and
    time. *)
Theorem marked_topic_not_upcoming (tid pid usr : string) (clock : nat -> Z)
  (db db' : Db) (plan : StudyPlan.Doc) (marked : MarkedTask) (newStreak : Z) :
  selectPlan db pid usr = Some plan ->
  NoDup (map StudyPlan.task_id (StudyPlan.dailyTasks plan)) ->
  markTopic (Some tid) (Some pid) usr clock db = (Mark200 marked newStreak, db') ->
  exists plan',
    studyPlans db' !! StudyPlan._id plan = Some plan'
    /\ forall days today task,
         task ∈ StudyPlan.getUpcomingTasks plan' days today ->
         StudyPlan.task_id task <> tid.
Proof.
  intros Hplan Hnd Hrun. pose proof Hrun as Hparts.
  apply markTopic_200 in Hparts
    as (tid0 & pid0 & plan0 & task & user & [= <-] & Ht & [= <-] & Hp
        & Hplan0 & Htask & Huser).
  rewrite Hplan in Hplan0. injection Hplan0 as <-.
  rewrite (markTopic_ok (Some tid) (Some pid) usr clock db tid pid plan task user)
    in Hrun by auto.
  injection Hrun as _ _ <-.
  exists (markedPlan plan tid (clock 0%nat)). cbn [studyPlans].
  split; [apply lookup_insert_eq|].
  intros days today t Hin Hid.
  unfold StudyPlan.getUpcomingTasks in Hin.
  rewrite sort_by_Permutation, elem_of_List_filter in Hin.
  destruct Hin as [Hin Hopen].
  destruct (markedPlan_frame plan tid (clock 0%nat) task Htask)
    as (_ & _ & _ & Htasks & _).
  rewrite Htasks in Hin.
  rewrite (update_id_marks tid (clock 0%nat) _ t Hnd Hin Hid) in Hopen.
  now rewrite andb_false_r in Hopen.
Qed.

Lemma marked_topic_not_upcoming_witness :
  selectPlan exampleDb "p1" "u1" = Some examplePlan
  /\ NoDup (map StudyPlan.task_id (StudyPlan.dailyTasks examplePlan))
  /\ markTopic (Some "t1") (Some "p1") "u1" noon exampleDb
     = (Mark200 (mkMarkedTask "t1" "Sets" true (Some 1000)) 3,
        mkDb (<["p1" := markedPlan examplePlan "t1" 1000]> (studyPlans exampleDb))
          (<["u1" := markedUser exampleUser noon]> (users exampleDb)))
  /\ exists plan',
       (<["p1" := markedPlan examplePlan "t1" 1000]> (studyPlans exampleDb))
         !! "p1" = Some plan'
       /\ forall days today task,
            task ∈ StudyPlan.getUpcomingTasks plan' days today ->
            StudyPlan.task_id task <> "t1".
Proof.
  assert (selectPlan exampleDb "p1" "u1" = Some examplePlan) as Hplan
    by reflexivity.
  assert (NoDup (map StudyPlan.task_id (StudyPlan.dailyTasks examplePlan)))
    as Hnd.
  { cbn. repeat constructor; rewrite ?list_elem_of_In; cbn; intuition discriminate. }
  assert (markTopic (Some "t1") (Some "p1") "u1" noon exampleDb
          = (Mark200 (mkMarkedTask "t1" "Sets" true (Some 1000)) 3,
             mkDb (<["p1" := markedPlan examplePlan "t1" 1000]>
                     (studyPlans exampleDb))
               (<["u1" := markedUser exampleUser noon]> (users exampleDb))))
    as Hrun.
  { apply (markTopic_ok (Some "t1") (Some "p1") "u1" noon exampleDb
             "t1" "p1" examplePlan
             (StudyPlan.mkDailyTask "t1" 90000000 "Sets" false None) exampleUser);
      try reflexivity; discriminate. }
  split; [exact Hplan|]. split; [exact Hnd|]. split; [exact Hrun|].
  exact (marked_topic_not_upcoming "t1" "p1" "u1" noon exampleDb _ examplePlan
           _ _ Hplan Hnd Hrun).
Defined.

(** * The scheduler on doubles *)

(** ** What a saved review has written *)

Section DoubleReview.
Import Floats.

Variables (c c' : Double.Flashcard) (quality : float) (clock : nat -> Z).
Hypothesis Hsaved : Double.updateReviewData c quality clock = Some c'.

(** The counters and the date of a saved review. *)
Lemma double_saved_date :
  Double.nextReview (Double.reviewData c')
  = clock 1%nat + Double.interval (Double.reviewData c') * 24 * 60 * 60 * 1000
  /\ Z.abs (Double.nextReview (Double.reviewData c')) <= Double.maxTime.
Proof.
  unfold Double.updateReviewData in Hsaved.
  destruct (3 <=? quality)%float; cbn in Hsaved.
  - destruct (if Double.reviewCount (Double.reviewData c) + 1 =? 1 then Some 1
              else if Double.reviewCount (Double.reviewData c) + 1 =? 2
                   then Some 6
                   else Double.Math_round _) as [i|]; [|discriminate].
    cbn in Hsaved.
    destruct (Double.castNumber _) as [ef|]; [|discriminate].
    cbn in Hsaved. unfold Double.newDate in Hsaved.
    destruct (Z.abs _ <=? Double.maxTime) eqn:E; [|discriminate].
    cbn in Hsaved. injection Hsaved as <-. cbn.
    apply Z.leb_le in E. auto.
  - unfold Double.newDate in Hsaved.
    destruct (Z.abs _ <=? Double.maxTime) eqn:E; [|discriminate].
    cbn in Hsaved. injection Hsaved as <-. cbn.
    apply Z.leb_le in E. auto.
Qed.

Lemma double_saved_success :
  (3 <=? quality)%float = true ->
  let n := Double.reviewCount (Double.reviewData c) + 1 in
  Double.reviewCount (Double.reviewData c') = n
  /\ Double.correctAnswers (Double.stats c')
     = Double.correctAnswers (Double.stats c) + 1
  /\ Some (Double.interval (Double.reviewData c'))
     = (if n =? 1 then Some 1
        else if n =? 2 then Some 6
        else Double.Math_round
               (Double.of_Z (Double.interval (Double.reviewData c))
                * Double.easeFactor (Double.reviewData c))%float).
Proof.
  intros Hq. cbv zeta. unfold Double.updateReviewData in Hsaved.
  rewrite Hq in Hsaved. cbn in Hsaved.
  destruct (if Double.reviewCount (Double.reviewData c) + 1 =? 1 then Some 1
            else if Double.reviewCount (Double.reviewData c) + 1 =? 2
                 then Some 6
                 else Double.Math_round _) as [i|]; [|discriminate].
  cbn in Hsaved.
  destruct (Double.castNumber _) as [ef|]; [|discriminate].
  cbn in Hsaved.
  destruct (Double.newDate _) as [t|]; [|discriminate].
  cbn in Hsaved. injection Hsaved as <-. cbn. auto.
Qed.

End DoubleReview.

Section DoubleClaims.
Import Floats.

(** C2.  On doubles, as the code computes: a review of quality at least 3
    that is saved has incremented the streak counter and has set the
    interval to 1 when the incremented counter is 1, to 6 when it is 2, and
    otherwise to [Math.round] of the binary64 product of the interval and
    the ease factor the card held before the review. *)
Theorem success_interval (c c' : Double.Flashcard) (quality : float)
  (clock : nat -> Z) :
  (3 <=? quality)%float = true ->
  Double.updateReviewData c quality clock = Some c' ->
  let n := Double.reviewCount (Double.reviewData c) + 1 in
  Double.reviewCount (Double.reviewData c') = n
  /\ (n = 1 -> Double.interval (Double.reviewData c') = 1)
  /\ (n = 2 -> Double.interval (Double.reviewData c') = 6)
  /\ (n <> 1 -> n <> 2 ->
      Some (Double.interval (Double.reviewData c'))
      = Double.Math_round
          (Double.of_Z (Double.interval (Double.reviewData c))
           * Double.easeFactor (Double.reviewData c))%float).
Proof.
  intros Hq Hsaved.
  destruct (double_saved_success c c' quality clock Hsaved Hq) as (Hn & _ & Hi).
  cbv zeta in *. split; [exact Hn|].
  split; [|split].
  - intros E. rewrite E in Hi. cbn in Hi. congruence.
  - intros E. rewrite E in Hi. cbn in Hi. congruence.
  - intros H1 H2. apply Z.eqb_neq in H1, H2. now rewrite H1, H2 in Hi.
Qed.

Lemma success_interval_witness :
  (3 <=? 5)%float = true
  /\ Double.updateReviewData (Double.newFlashcard 0) 5%float noon = Some Double.once
  /\ Double.updateReviewData Double.once 5%float noon <> None
  /\ Double.updateReviewData Double.streak6 5%float noon = Some Double.streak7
  /\ Double.interval (Double.reviewData Double.once) = 1
  /\ (forall c', Double.updateReviewData Double.once 5%float noon = Some c' ->
                 Double.interval (Double.reviewData c') = 6)
  /\ Double.Math_round
       (Double.of_Z (Double.interval (Double.reviewData Double.streak6))
        * Double.easeFactor (Double.reviewData Double.streak6))%float
     = Some 294.
Proof.
  assert ((3 <=? 5)%float = true) as Hq by reflexivity.
  assert (Double.updateReviewData (Double.newFlashcard 0) 5%float noon
          = Some Double.once) as H1 by (vm_compute; reflexivity).
  assert (Double.updateReviewData Double.once 5%float noon <> None) as H2
    by (vm_compute; discriminate).
  assert (Double.updateReviewData Double.streak6 5%float noon = Some Double.streak7)
    as H7 by (vm_compute; reflexivity).
  split; [exact Hq|]. split; [exact H1|]. split; [exact H2|].
  split; [exact H7|]. split; [|split].
  - destruct (success_interval _ _ 5%float noon Hq H1) as (_ & Hone & _).
    exact (Hone eq_refl).
  - intros c' Hc'.
    destruct (success_interval _ _ 5%float noon Hq Hc') as (_ & _ & Htwo & _).
    exact (Htwo eq_refl).
  - destruct (success_interval _ _ 5%float noon Hq H7) as (_ & _ & _ & Hround).
    rewrite <- Hround by (vm_compute; discriminate). reflexivity.
Defined.

(** The run 5, 3, 3, 3, 3, 3, 5 is where the doubles and the exact
    arithmetic of the first model part: the last product is
    294.49999999999994 on doubles and 294.5 exactly. *)
Example double_product_rounds_down :
  Double.interval (Double.reviewData Double.streak7) = 294
  /\ interval (reviewData exactStreak7) = 295.
Proof. split; vm_compute; reflexivity. Qed.

(** ** The next review date *)

(** C9.  When a review is saved, which is when the review completes, the
    card's [nextReview] is the [Date.now()] of the review plus the interval
    just computed, in days ([interval * 24 * 60 * 60 * 1000] milliseconds),
    whatever the quality; and that date is within the range of Date.  The
    clock reading is that of a real clock, from 0 to 2^48. *)
Theorem nextReview_after (c c' : Double.Flashcard) (quality : float)
  (clock : nat -> Z) :
  0 <= clock 1%nat < 2 ^ 48 ->
  Double.updateReviewData c quality clock = Some c' ->
  Double.nextReview (Double.reviewData c')
  = clock 1%nat + Double.interval (Double.reviewData c') * 24 * 60 * 60 * 1000
  /\ Z.abs (Double.nextReview (Double.reviewData c')) <= Double.maxTime.
Proof. intros _ Hsaved. exact (double_saved_date c c' quality clock Hsaved). Qed.

Lemma nextReview_after_witness :
  0 <= noon 1%nat < 2 ^ 48
  /\ Double.updateReviewData Double.streak6 5%float noon = Some Double.streak7
  /\ Double.updateReviewData Double.streak6 2%float noon <> None
  /\ Double.nextReview (Double.reviewData Double.streak7)
     = noon 1%nat + 294 * 24 * 60 * 60 * 1000
  /\ (forall c', Double.updateReviewData Double.streak6 2%float noon = Some c' ->
                 Double.nextReview (Double.reviewData c')
                 = noon 1%nat
                   + Double.interval (Double.reviewData c') * 24 * 60 * 60 * 1000).
Proof.
  assert (0 <= noon 1%nat < 2 ^ 48) as Hclock by (unfold noon; lia).
  assert (Double.updateReviewData Double.streak6 5%float noon = Some Double.streak7)
    as H7 by (vm_compute; reflexivity).
  assert (Double.updateReviewData Double.streak6 2%float noon <> None) as H2
    by (vm_compute; discriminate).
  split; [exact Hclock|]. split; [exact H7|]. split; [exact H2|]. split.
  - exact (proj1 (nextReview_after _ _ 5%float noon Hclock H7)).
  - intros c' Hc'. exact (proj1 (nextReview_after _ _ 2%float noon Hclock Hc')).
Defined.

(** The save is rejected exactly when the new date is out of range, the
    rounded product is no integer or the new ease factor is NaN; here, on
    the sixteenth answer of quality 5 in a row, whose interval of 120864680
    days ends beyond the last day of Date. *)
Example sixteenth_review_rejected :
  Double.updateReviewData Double.streak15 5%float noon = None
  /\ Double.Math_round
       (Double.of_Z (Double.interval (Double.reviewData Double.streak15))
        * Double.easeFactor (Double.reviewData Double.streak15))%float
     = Some 120864680
  /\ Double.newDate (noon 1%nat + 120864680 * 24 * 60 * 60 * 1000) = None.
Proof. repeat split; vm_compute; reflexivity. Qed.

End DoubleClaims.

(** * A stored review and the due flag *)

(** X5.  When the review of a card with the invariants is answered 200, the
    card it stored is not due at any time earlier than 24 hours after the
    [Date.now()] of the review, and the [isDue] of the answer is false when
    the answer is built within those 24 hours. *)
Theorem reviewed_card_not_due (req : ReviewRequest) (clock : nat -> Z)
  (db db' : gmap string Flashcard) (c : Flashcard) (r : ReviewedJson)
  (today : Z) :
  selectOne db (params_id req) (user_id req) = Some c ->
  card_invariant c ->
  run (review req clock) db = (Status200 r, db') ->
  today < clock 1%nat + 24 * 60 * 60 * 1000 ->
  (exists c', db' !! _id c = Some c' /\ isDue c' today = false)
  /\ (clock 2%nat < clock 1%nat + 24 * 60 * 60 * 1000 -> res_isDue r = false).
Proof.
  intros Hsel Hinv Hrun Htoday.
  apply review_200 in Hrun as (q & c0 & Hq & Hrange & Hsel0 & -> & ->).
  rewrite Hsel in Hsel0. injection Hsel0 as <-.
  pose proof (nextReview_lower_bound
                (updateResponseTime c (body_responseTime req)) q clock
                (updateResponseTime_invariant c _ Hinv)) as Hnext.
  fold (reviewedCard c req q clock) in Hnext.
  split.
  - exists (reviewedCard c req q clock). split; [apply lookup_insert_eq|].
    unfold isDue. apply Z.leb_gt. lia.
  - intros Hanswer. unfold reviewedJson. cbn [res_isDue].
    unfold isDue. apply Z.leb_gt. lia.
Qed.

Lemma reviewed_card_not_due_witness :
  let db : gmap string Flashcard := {[ "c1" := slowCard ]} in
  let c' := reviewedCard slowCard instantReview 4 noon in
  selectOne db "c1" "u1" = Some slowCard
  /\ card_invariant slowCard
  /\ run (review instantReview noon) db
     = (Status200 (reviewedJson c' (noon 2%nat)), <["c1" := c']> db)
  /\ 86400000 < noon 1%nat + 24 * 60 * 60 * 1000
  /\ (exists d, (<["c1" := c']> db) !! "c1" = Some d /\ isDue d 86400000 = false)
  /\ res_isDue (reviewedJson c' (noon 2%nat)) = false.
Proof.
  cbv zeta.
  assert (selectOne {[ "c1" := slowCard ]} "c1" "u1" = Some slowCard) as Hsel
    by (apply (selectOne_singleton slowCard); reflexivity).
  assert (card_invariant slowCard) as Hinv.
  { unfold card_invariant; cbn. split; [reflexivity|]. split; [|lia].
    unfold Qle; simpl; lia. }
  assert (run (review instantReview noon) {[ "c1" := slowCard ]}
          = (Status200 (reviewedJson (reviewedCard slowCard instantReview 4 noon)
                          (noon 2%nat)),
             <["c1" := reviewedCard slowCard instantReview 4 noon]>
               {[ "c1" := slowCard ]})) as Hrun.
  { apply (review_ok instantReview noon _ 4%Q slowCard);
      [reflexivity | split; discriminate | exact Hsel]. }
  assert (86400000 < noon 1%nat + 24 * 60 * 60 * 1000) as Hnow by reflexivity.
  destruct (reviewed_card_not_due instantReview noon _ _ slowCard _ 86400000
              Hsel Hinv Hrun Hnow) as [Hstored Hanswer].
  split; [exact Hsel|]. split; [exact Hinv|]. split; [exact Hrun|].
  split; [exact Hnow|]. split; [exact Hstored|].
  apply Hanswer. reflexivity.
Defined.
